(** * cx-common-js-client: the CxSCA client, its threshold evaluator and waiter

    A shallow embedding of [src/services/clients/scaClient.ts] and of the
    collaborators its behaviour depends on.  The asynchronous methods of
    [ScaClient] are embedded in a state-and-exception monad over a [Run]:
    the mutable fields of the client ([projectId], [scanId]) and the
    chronological list of everything the client asked of its collaborators
    (HTTP transport, zipper, [tmp], [child_process], logger, stopwatch).
    Embedded are project resolution, scan creation on both source flows and
    the retrieval of results.  The threshold evaluator and the waiter, whose
    sources are not at hand, are modelled from the specification. *)

From Stdlib Require Import ZArith NArith Bool List String Ascii DecimalString Lia.
Import ListNotations.
Open Scope string_scope.
Open Scope Z_scope.
Set Warnings "-register-all".

(* ================================================================== *)
(** ** JavaScript values, as the transport hands them to the client    *)
(* ================================================================== *)

(** Payloads are typed [any] in the source.  [JsNumber] holds the
    integer-valued numbers; objects are association lists in which the
    first binding of a key is the one that is read. *)
Inductive JsValue : Type :=
| JsUndefined
| JsNull
| JsBoolean (b : bool)
| JsNumber (n : Z)
| JsString (s : string)
| JsArray (items : list JsValue)
| JsObject (members : list (string * JsValue)).

(** ToBoolean: what [if (v)], [!v] and [a && b] look at. *)
Definition truthy (v : JsValue) : bool :=
  match v with
  | JsUndefined | JsNull => false
  | JsBoolean b => b
  | JsNumber n => negb (n =? 0)
  | JsString s => negb (s =? "")%string
  | JsArray _ | JsObject _ => true
  end.

(** ToString, as a template literal or [string + v] applies it. *)
Fixpoint toString (v : JsValue) : string :=
  match v with
  | JsUndefined => "undefined"
  | JsNull => "null"
  | JsBoolean b => if b then "true" else "false"
  | JsNumber n => NilZero.string_of_int (Z.to_int n)
  | JsString s => s
  | JsArray items =>
      let fix join (l : list JsValue) : string :=
        match l with
        | [] => ""
        | x :: rest =>
            let sx := match x with
                      | JsUndefined | JsNull => ""
                      | _ => toString x
                      end in
            match rest with
            | [] => sx
            | _ :: _ => sx ++ "," ++ join rest
            end
        end in
      join items
  | JsObject _ => "[object Object]"
  end.

Fixpoint lookupMember (key : string) (members : list (string * JsValue)) : JsValue :=
  match members with
  | [] => JsUndefined
  | (k, v) :: rest => if (k =? key)%string then v else lookupMember key rest
  end.

Inductive ErrorClass := Error | TypeError | SyntaxError | URIError | TaskSkippedError.

(** A thrown value: an [Error] object of some class with its [message]. *)
Record JsError := mkError { errorClass : ErrorClass; message : string }.

Inductive Completion (A : Type) : Type :=
| Normal (a : A)
| Abrupt (e : JsError).
Arguments Normal {A} a.
Arguments Abrupt {A} e.

(** [v.key] and [v[key]] for the keys the client reads ([id], [url],
    [name], [fileCount], the summary fields): none of them is a built-in
    property of a string, number, boolean or array, so only objects
    answer; [undefined] and [null] throw a TypeError (the message is the
    engine's; nothing below depends on its wording). *)
Definition getMember (v : JsValue) (key : string) : Completion JsValue :=
  match v with
  | JsUndefined =>
      Abrupt (mkError TypeError ("Cannot read property '" ++ key ++ "' of undefined"))
  | JsNull =>
      Abrupt (mkError TypeError ("Cannot read property '" ++ key ++ "' of null"))
  | JsObject members => Normal (lookupMember key members)
  | _ => Normal JsUndefined
  end.

(** The values a [for (const x of v)] loop visits. *)
Definition iterate (v : JsValue) : Completion (list JsValue) :=
  match v with
  | JsArray items => Normal items
  | JsString s =>
      Normal (map (fun c => JsString (String c EmptyString)) (list_ascii_of_string s))
  | _ => Abrupt (mkError TypeError (toString v ++ " is not iterable"))
  end.

(* ================================================================== *)
(** ** Collaborators and the run of a client                           *)
(* ================================================================== *)

Inductive LogLevel := Debug | Info | Warning.

(** The requests the client awaits from its collaborators. *)
Inductive Call : Type :=
| GetRequest (path : string)
| PostRequest (path : string) (body : JsValue)
| TmpNameSync (prefix postfix : string)
| ZipDirectory (extensions exclusions : string) (src : string) (dest : JsValue)
| ExecSync (command : string).

Inductive Reply : Type :=
| Returned (v : JsValue)
| Rejected (e : JsError).

Inductive Event : Type :=
| Logged (level : LogLevel) (text : string)
| Called (c : Call) (r : Reply)
| StopwatchStarted.

Inductive SourceLocationType := LOCAL_DIRECTORY | REMOTE_REPOSITORY.

(** The JavaScript runtime and the outside world of one run.  What a
    collaborator answers may depend on everything that happened before.
    [regexpValid p] tells whether [new RegExp(p)] compiles and
    [regexpSearch p s] whether the compiled pattern matches somewhere in
    [s]; [locationTypeValue] is the string behind each member of the enum
    [SourceLocationType], whose declaration is not among the sources. *)

Record Runtime := mkRuntime {
  answer : list Event -> Call -> Reply;
  regexpValid : string -> bool;
  regexpSearch : string -> string -> bool;
  locationTypeValue : SourceLocationType -> string
}.

Record RemoteRepositoryInfo := mkRemoteRepositoryInfo { url : string }.

(** The fields of [ScaConfig] that the embedded code reads; [None] is an
    absent ([undefined]) field. *)
Record ScaConfig := mkScaConfig {
  webAppUrl : option string;
  sourceLocationType : SourceLocationType;
  remoteRepositoryInfo : option RemoteRepositoryInfo;
  dependencyFileExtension : string;
  dependencyFolderExclusion : string;
  vulnerabilityThreshold : bool;
  highThreshold : Z;
  mediumThreshold : Z;
  lowThreshold : Z
}.

(** The mutable part of a [ScaClient] together with the history so far. *)
Record Run := mkRun {
  projectId : JsValue;
  scanId : JsValue;
  events : list Event
}.

(** [new ScaClient(...)]: both identifiers start as the empty string. *)
Definition newScaClient : Run :=
  {| projectId := JsString ""; scanId := JsString ""; events := [] |}.

Definition Async (A : Type) : Type := Run -> Completion A * Run.

Definition ret {A} (a : A) : Async A := fun w => (Normal a, w).

Definition throw {A} (e : JsError) : Async A := fun w => (Abrupt e, w).

Definition bind {A B} (m : Async A) (k : A -> Async B) : Async B :=
  fun w =>
    match m w with
    | (Normal a, w') => k a w'
    | (Abrupt e, w') => (Abrupt e, w')
    end.

Definition tryCatch {A} (body : Async A) (handler : JsError -> Async A) : Async A :=
  fun w =>
    match body w with
    | (Normal a, w') => (Normal a, w')
    | (Abrupt e, w') => handler e w'
    end.

Definition lift {A} (c : Completion A) : Async A := fun w => (c, w).

Declare Scope async_scope.
Delimit Scope async_scope with async.
Notation "x <- m ;; k" := (bind m (fun x => k))
  (at level 100, m at next level, right associativity) : async_scope.
Notation "m ;;; k" := (bind m (fun _ => k))
  (at level 100, right associativity) : async_scope.
Open Scope async_scope.

Definition record (e : Event) (w : Run) : Run :=
  {| projectId := projectId w; scanId := scanId w; events := events w ++ [e] |}.

Definition log (level : LogLevel) (text : string) : Async unit :=
  fun w => (Normal tt, record (Logged level text) w).

Definition getProjectId : Async JsValue := fun w => (Normal (projectId w), w).
Definition getScanId : Async JsValue := fun w => (Normal (scanId w), w).

Definition setProjectId (v : JsValue) : Async unit :=
  fun w => (Normal tt, {| projectId := v; scanId := scanId w; events := events w |}).

Definition setScanId (v : JsValue) : Async unit :=
  fun w => (Normal tt, {| projectId := projectId w; scanId := v; events := events w |}).

Definition stopwatchStart : Async unit :=
  fun w => (Normal tt, record StopwatchStarted w).

(* ================================================================== *)
(** ** [ScaClient], method by method                                   *)
(* ================================================================== *)

Definition LF : string := String (ascii_of_nat 10) EmptyString.
Definition DQUOTE : string := String (ascii_of_nat 34) EmptyString.

(** [v === 0] *)
Definition strictEqualsZero (v : JsValue) : bool :=
  match v with
  | JsNumber 0 => true
  | _ => false
  end.

(** [Error.prototype.toString], for [MESSAGE + err].  [TaskSkippedError]
    extends [Error] and inherits its [name]. *)
Definition errorToString (e : JsError) : string :=
  (match errorClass e with
   | Error | TaskSkippedError => "Error"
   | TypeError => "TypeError"
   | SyntaxError => "SyntaxError"
   | URIError => "URIError"
   end) ++ ": " ++ message e.

(** What [retrieveScanResults] fills in on a [new SCAResults()]. *)
Record SCAResults := mkSCAResults {
  results_scanId : JsValue;
  summary : JsValue;
  findings : JsValue;
  packages : JsValue;
  webReportLink : string;
  scaResultReady : bool
}.

(** The banner line of [createScan]. *)
Definition creatingScanBanner : string :=
  "----------------------------------- Creating CxSCA Scan ------------------------------------".

Section ScaClient.

Variable rt : Runtime.
(** The constructor's arguments. *)
Variable config : ScaConfig.
Variable sourceLocation : string.

Definition RISK_MANAGEMENT_API : string := "/risk-management/".
Definition PROJECTS : string := RISK_MANAGEMENT_API ++ "projects".
Definition ZIP_UPLOAD : string := "/api/uploads".
Definition CREATE_SCAN : string := "/api/scans".

(** Awaiting a collaborator: the call and its outcome enter the history,
    a rejection is thrown at the [await]. *)
Definition await (c : Call) : Async JsValue :=
  fun w =>
    match answer rt (events w) c with
    | Returned v => (Normal v, record (Called c (Returned v)) w)
    | Rejected e => (Abrupt e, record (Called c (Rejected e)) w)
    end.

Definition getRequest (path : string) : Async JsValue := await (GetRequest path).

Definition postRequest (path : string) (body : JsValue) : Async JsValue :=
  await (PostRequest path body).

(** The body [sendStartScanRequest] posts. *)
Definition startScanRequest (pid : JsValue) (location : SourceLocationType)
  (sourceUrl : JsValue) : JsValue :=
  JsObject [("project",
             JsObject [("id", pid);
                       ("type", JsString (locationTypeValue rt location));
                       ("handler", JsObject [("url", sourceUrl)])])].

(** The command line [uploadToAWS] hands to [execSync]. *)
Definition curlCommand (target file : JsValue) : string :=
  "curl -X PUT -L " ++ DQUOTE ++ toString target ++ DQUOTE
    ++ " -H " ++ DQUOTE ++ "Content-Type:" ++ DQUOTE
    ++ " -T " ++ DQUOTE ++ toString file ++ DQUOTE.

(** [name.match(pattern)], reduced to its truth value: [name] must be a
    string to have a [match] method, and a pattern that does not compile
    throws. *)
Definition stringMatch (name : JsValue) (pattern : string) : Completion bool :=
  match name with
  | JsString s =>
      if regexpValid rt pattern
      then Normal (regexpSearch rt pattern s)
      else Abrupt (mkError SyntaxError ("Invalid regular expression: /" ++ pattern ++ "/"))
  | JsUndefined =>
      Abrupt (mkError TypeError "Cannot read property 'match' of undefined")
  | JsNull =>
      Abrupt (mkError TypeError "Cannot read property 'match' of null")
  | _ => Abrupt (mkError TypeError "project.name.match is not a function")
  end.

Definition getAllProjects : Async JsValue := getRequest PROJECTS.

(** The [for ... of] loop of [getProjectIdByName], with its [break]. *)
Fixpoint searchProjects (projectName : string) (projects : list JsValue) : Async unit :=
  match projects with
  | [] => ret tt
  | project :: rest =>
      name <- lift (getMember project "name") ;;
      matched <- lift (stringMatch name projectName) ;;
      if matched : bool
      then (id <- lift (getMember project "id") ;; setProjectId id)
      else searchProjects projectName rest
  end.

Definition getProjectIdByName (projectName : string) : Async unit :=
  if (projectName =? "")%string
  then throw (mkError Error "Non-empty project name must be provided.")
  else
    allProjects <- getAllProjects ;;
    projects <- lift (iterate allProjects) ;;
    searchProjects projectName projects.

Definition createProject (projectName : string) : Async JsValue :=
  let request := JsObject [("name", JsString projectName)] in
  newProject <- postRequest PROJECTS request ;;
  lift (getMember newProject "id").

Definition resolveProject (projectName : string) : Async unit :=
  log Info ("Resolving project by name: " ++ projectName) ;;;
  getProjectIdByName projectName ;;;
  found <- getProjectId ;;
  if negb (truthy found)
  then
    log Info "Project not found, creating a new one." ;;;
    created <- createProject projectName ;;
    setProjectId created ;;;
    log Info ("Created a project with ID: " ++ toString created)
  else
    log Info ("Project already exists with ID: " ++ toString found).

Definition sendStartScanRequest (location : SourceLocationType) (sourceUrl : JsValue)
  : Async JsValue :=
  log Info "Sending a request to start scan." ;;;
  pid <- getProjectId ;;
  postRequest CREATE_SCAN (startScanRequest pid location sourceUrl).

Definition submitSourceFromRemoteRepo : Async JsValue :=
  log Info "Using remote repository flow." ;;;
  match remoteRepositoryInfo config with
  | None =>
      throw (mkError Error
               ("URL must be provided in CxSCA configuration when using source location of type "
                  ++ locationTypeValue rt REMOTE_REPOSITORY ++ "."))
  | Some repoInfo =>
      sendStartScanRequest REMOTE_REPOSITORY (JsString (url repoInfo))
  end.

Definition getSourceUploadUrl : Async JsValue :=
  response <- postRequest ZIP_UPLOAD (JsObject []) ;;
  if negb (truthy response)
  then throw (mkError Error "Unable to get the upload URL.")
  else
    target <- lift (getMember response "url") ;;
    if negb (truthy target)
    then throw (mkError Error "Unable to get the upload URL.")
    else ret target.

Definition uploadToAWS (target : JsValue) (file : JsValue) : Async unit :=
  log Debug ("Sending PUT request to " ++ toString target) ;;;
  await (ExecSync (curlCommand target file)) ;;;
  ret tt.

Definition submitSourceFromLocalDir : Async JsValue :=
  log Info "Using local directory flow." ;;;
  tempFilename <- await (TmpNameSync "cxsrc-" ".zip") ;;
  log Info ("Zipping source code at " ++ sourceLocation ++ " into file "
              ++ toString tempFilename) ;;;
  zipResult <- await (ZipDirectory (dependencyFileExtension config)
                                   (dependencyFolderExclusion config)
                                   sourceLocation tempFilename) ;;
  fileCount <- lift (getMember zipResult "fileCount") ;;
  if strictEqualsZero fileCount
  then throw (mkError TaskSkippedError "Zip file is empty: no source to scan")
  else
    log Info "Uploading the zipped source file..." ;;;
    uploadedArchiveUrl <- getSourceUploadUrl ;;
    uploadToAWS uploadedArchiveUrl tempFilename ;;;
    sendStartScanRequest LOCAL_DIRECTORY uploadedArchiveUrl.

Definition extractScanIdFrom (response : JsValue) : Completion JsValue :=
  if truthy response
  then
    match getMember response "id" with
    | Normal id =>
        if truthy id then Normal id
        else Abrupt (mkError Error "Unable to get scan ID.")
    | Abrupt e => Abrupt e
    end
  else Abrupt (mkError Error "Unable to get scan ID.").

Definition createScan : Async unit :=
  log Info creatingScanBanner ;;;
  tryCatch
    (response <- (match sourceLocationType config with
                  | REMOTE_REPOSITORY => submitSourceFromRemoteRepo
                  | LOCAL_DIRECTORY => submitSourceFromLocalDir
                  end) ;;
     id <- lift (extractScanIdFrom response) ;;
     setScanId id ;;;
     stopwatchStart ;;;
     log Info ("Scan started successfully. Scan ID: " ++ toString id))
    (fun err => throw (mkError Error ("Error creating CxSCA scan. " ++ message err))).

Definition getWebReportLink (reportId : JsValue) : Async string :=
  let MESSAGE := "Unable to generate web report link. " in
  tryCatch
    (match webAppUrl config with
     | None => log Warning (MESSAGE ++ "Web app URL is not specified.") ;;; ret ""
     | Some base =>
         if (base =? "")%string
         then log Warning (MESSAGE ++ "Web app URL is not specified.") ;;; ret ""
         else
           pid <- getProjectId ;;
           ret (base ++ "/#/projects/" ++ toString pid ++ "/reports/" ++ toString reportId)
     end)
    (fun err => log Warning (MESSAGE ++ errorToString err) ;;; ret "").

Definition printSummaryResult (summary : JsValue) : Async unit :=
  let line (label key : string) : Async unit :=
    field <- lift (getMember summary key) ;;
    log Info (label ++ toString field) in
  log Info (LF ++ "----CxSCA risk report summary----") ;;;
  line "Created on: " "createdOn" ;;;
  line "Direct packages: " "directPackages" ;;;
  line "High vulnerabilities: " "highVulnerabilityCount" ;;;
  line "Medium vulnerabilities: " "mediumVulnerabilityCount" ;;;
  line "Low vulnerabilities: " "lowVulnerabilityCount" ;;;
  line "Risk report ID: " "riskReportId" ;;;
  sid <- getScanId ;;
  log Info ("Scan ID: " ++ toString sid) ;;;
  line "Risk score: " "riskScore" ;;;
  line "Total packages: " "totalPackages" ;;;
  outdated <- lift (getMember summary "totalOutdatedPackages") ;;
  log Info ("Total outdated packages: " ++ toString outdated ++ LF).

Definition summaryPath (reportId : JsValue) : string :=
  "/risk-management/riskReports/" ++ toString reportId ++ "/summary".

Definition findingsPath (reportId : JsValue) : string :=
  "/risk-management/riskReports/" ++ toString reportId ++ "/vulnerabilities".

Definition packagesPath (reportId : JsValue) : string :=
  "/risk-management/riskReports/" ++ toString reportId ++ "/packages".

Definition reportIdPath (scan : JsValue) : string :=
  "/risk-management/scans/" ++ toString scan ++ "/riskReportId".

Definition getSummaryReport (reportId : JsValue) : Async JsValue :=
  log Debug "Getting summary report." ;;;
  result <- getRequest (summaryPath reportId) ;;
  printSummaryResult result ;;;
  ret result.

Definition getFindings (reportId : JsValue) : Async JsValue :=
  log Info "Getting findings." ;;;
  getRequest (findingsPath reportId).

Definition getPackages (reportId : JsValue) : Async JsValue :=
  log Info "Getting packages." ;;;
  getRequest (packagesPath reportId).

Definition getReportId : Async JsValue :=
  sid <- getScanId ;;
  log Debug ("Getting report ID by scan ID: " ++ toString sid) ;;;
  reportId <- getRequest (reportIdPath sid) ;;
  log Info ("Report ID is: " ++ toString reportId) ;;;
  ret reportId.

Definition retrieveScanResults : Async SCAResults :=
  log Info "Retrieving CxSCA scan results." ;;;
  tryCatch
    (reportId <- getReportId ;;
     sid <- getScanId ;;
     scanSummary <- getSummaryReport reportId ;;
     findings <- getFindings reportId ;;
     packages <- getPackages reportId ;;
     reportLink <- getWebReportLink reportId ;;
     (if (reportLink =? "")%string
      then ret tt
      else log Info ("CxSCA scan results location: " ++ reportLink)) ;;;
     log Info "Retrieved CxSCA results successfully." ;;;
     ret {| results_scanId := sid;
            summary := scanSummary;
            findings := findings;
            packages := packages;
            webReportLink := reportLink;
            scaResultReady := true |})
    (fun err => throw (mkError Error ("Error retrieving CxSCA scan results. " ++ message err))).

End ScaClient.

(* ================================================================== *)
(** ** Login settings and waiting for the results                      *)
(* ================================================================== *)

Inductive ClientType := SCA | RESOURCE_OWNER.

(** The fields of [ScaConfig] that [resolveScaLoginSettings] reads.  The
    access-control URL is declared a string; [None] is the [undefined] of
    a configuration object that does not set it. *)
Record ScaLoginConfig := mkScaLoginConfig {
  accessControlUrl : option string;
  apiUrl : string;
  username : string;
  password : string;
  tenant : string
}.

Module ScaLoginSettings.

(** The fields [resolveScaLoginSettings] assigns on a
    [new ScaLoginSettings()]. *)
Record t := mk {
  apiUrl : string;
  accessControlBaseUrl : string;
  username : string;
  password : string;
  tenant : string;
  clientTypeForPasswordAuth : ClientType
}.

End ScaLoginSettings.

Definition CLOUD_ACCESS_CONTROL_BASE_URL : string := "https://platform.checkmarx.net".

Section Login.

(** [url.resolve] of the Node runtime, which throws on some arguments: a
    [TypeError] when the base is not a string, a [URIError] when the
    authentication part of the base cannot be decoded. *)
Variable urlResolve : option string -> string -> Completion string.

Definition resolveScaLoginSettings (scaConfig : ScaLoginConfig) : Async ScaLoginSettings.t :=
  let acUrl := accessControlUrl scaConfig in
  let isAccessControlInCloud :=
    match acUrl with
    | Some given =>
        negb (given =? "")%string && String.prefix CLOUD_ACCESS_CONTROL_BASE_URL given
    | None => false
    end in
  acUrl <- match acUrl with
           | Some given =>
               if isAccessControlInCloud then ret given
               else lift (urlResolve acUrl "CxRestAPI/auth/")
           | None => lift (urlResolve acUrl "CxRestAPI/auth/")
           end ;;
  log Info (if isAccessControlInCloud then "Using cloud authentication."
            else "Using on-premise authentication.") ;;;
  ret {| ScaLoginSettings.apiUrl := apiUrl scaConfig;
         ScaLoginSettings.accessControlBaseUrl := acUrl;
         ScaLoginSettings.username := username scaConfig;
         ScaLoginSettings.password := password scaConfig;
         ScaLoginSettings.tenant := tenant scaConfig;
         ScaLoginSettings.clientTypeForPasswordAuth :=
           if isAccessControlInCloud then SCA else RESOURCE_OWNER |}.

End Login.

Definition gettingResultsBanner : string :=
  "------------------------------------ Get CxSCA Results -----------------------------------".

Section WaitForScanResults.

Variable rt : Runtime.
Variable config : ScaConfig.

(** [SCAWaiter] (services/scaWaiter) is not among the sources.  It is
    built from the scan id and works through the client's transport,
    stopwatch and logger: given the scan id and the history so far it
    completes or throws, having added events of its own; it cannot reach
    the client's fields. *)
Variable waiter : JsValue -> list Event -> Completion unit * list Event.

(** The class [ScaReportResults], whose constructor wraps the results. *)
Variable Report : Type.
Variable ScaReportResults : SCAResults -> Report.

Definition waitForScanToFinishOf : Async unit :=
  fun w =>
    let (completion, added) := waiter (scanId w) (events w) in
    (completion,
     {| projectId := projectId w; scanId := scanId w; events := events w ++ added |}).

(** [waitForScanResults(result)]; what it assigns to [result.scaResults]
    is what the embedding returns. *)
Definition waitForScanResults : Async Report :=
  log Info gettingResultsBanner ;;;
  waitForScanToFinishOf ;;;
  scaResults <- retrieveScanResults rt config ;;
  ret (ScaReportResults scaResults).

End WaitForScanResults.

(** Which events leave the machine: requests through the transport and the
    [curl] upload run by [execSync]. *)
Definition isNetworkCall (e : Event) : bool :=
  match e with
  | Called (GetRequest _) _ => true
  | Called (PostRequest _ _) _ => true
  | Called (ExecSync _) _ => true
  | _ => false
  end.

Definition networkCalls (es : list Event) : list Event := filter isNetworkCall es.

Definition isStartScanCall (e : Event) : bool :=
  match e with
  | Called (PostRequest path _) _ => (path =? CREATE_SCAN)%string
  | _ => false
  end.

Definition isCreateProjectCall (e : Event) : bool :=
  match e with
  | Called (PostRequest path _) _ => (path =? PROJECTS)%string
  | _ => false
  end.

(* ================================================================== *)
(** ** The threshold evaluator                                         *)
(* ================================================================== *)

(** Modelled from the spec: the severities of section 4.5, in its order
    high, medium, low. *)
Inductive Severity := High | Medium | Low.

(** Modelled from the spec: the counts record {high, medium, low}, with the
    field names the test passes to [getScanSummary]. *)
Record VulnerabilityCounts := mkCounts {
  highResults : Z;
  mediumResults : Z;
  lowResults : Z
}.

(** Modelled from the spec: a ThresholdViolation is a severity label, the
    observed count and the configured ceiling. *)
Record ThresholdError := mkThresholdError {
  severity : Severity;
  observed : Z;
  ceiling : Z
}.

(** Modelled from the spec: the evaluator's output, the sequence of
    violations ([summary.thresholdErrors] in the test). *)
Record ScanSummary := mkScanSummary { thresholdErrors : list ThresholdError }.

(** Modelled from the spec: [counts[S]] and [ceilings[S]]. *)
Definition countOf (counts : VulnerabilityCounts) (s : Severity) : Z :=
  match s with
  | High => highResults counts
  | Medium => mediumResults counts
  | Low => lowResults counts
  end.

Definition ceilingOf (config : ScaConfig) (s : Severity) : Z :=
  match s with
  | High => highThreshold config
  | Medium => mediumThreshold config
  | Low => lowThreshold config
  end.

(** Modelled from the spec: a severity with [observed > ceiling] yields one
    violation, independently of the others. *)
Definition checkThreshold (config : ScaConfig) (counts : VulnerabilityCounts) (s : Severity)
  : list ThresholdError :=
  if ceilingOf config s <? countOf counts s
  then [ {| severity := s; observed := countOf counts s; ceiling := ceilingOf config s |} ]
  else [].

(** Modelled from the spec: [ScaSummaryEvaluator.getScanSummary]
    (services/scaSummaryEvaluator) is not among the sources, only its test
    is.  Section 4.5: with the flag off the result is empty; otherwise each
    of the three counts is compared with its ceiling by strict
    greater-than, each severity on its own, in the order high, medium,
    low. *)
Definition getScanSummary (config : ScaConfig) (counts : VulnerabilityCounts) : ScanSummary :=
  {| thresholdErrors :=
       if vulnerabilityThreshold config
       then checkThreshold config counts High
              ++ checkThreshold config counts Medium
              ++ checkThreshold config counts Low
       else [] |}.

(** Modelled from the spec: [hasViolations()] is [violations.length > 0];
    the test calls it [hasThresholdErrors]. *)
Definition hasThresholdErrors (s : ScanSummary) : bool :=
  (0 <? List.length (thresholdErrors s))%nat.

(* ================================================================== *)
(** ** The waiter                                                      *)
(* ================================================================== *)

(** Modelled from the spec: the job statuses of section 4.3; [Finished],
    [Failed] and [Canceled] are the terminal ones. *)
Inductive ScanStatus := Queued | Running | Finished | Failed | Canceled.

Definition isTerminal (s : ScanStatus) : bool :=
  match s with
  | Finished | Failed | Canceled => true
  | Queued | Running => false
  end.

(** Modelled from the spec: one status fetch, which reports a status or
    fails at the transport, and the wall-clock time it took (ms). *)
Inductive PollReply := Status (s : ScanStatus) | TransportFailure.

Record Poll := mkPoll { reply : PollReply; latency : N }.

(** Modelled from the spec: the waiter ends with a terminal status, with a
    Timeout, or with the hard failure that repeated transport failures are
    escalated to. *)
Inductive WaitOutcome :=
| Terminal (s : ScanStatus)
| TimeoutFailure
| PollFailure.

(** Modelled from the spec: a fixed, positive poll interval, the maximum
    total wait (both in ms) and the bound on retried transport failures. *)
Record WaiterConfig := mkWaiterConfig {
  pollInterval : positive;
  maxWait : N;
  maxPollErrors : nat
}.

(** Modelled from the spec: [SCAWaiter] (services/scaWaiter) is not among
    the sources.  Section 4.3: before each poll the elapsed wall-clock time
    is compared with the maximum wait, and exceeding it is a Timeout; a
    poll that reports a terminal status stops with it; after a
    non-terminal one the waiter sleeps one interval and retries; transport
    failures are retried up to [maxPollErrors] times and then escalated.
    [remote k] is the k-th poll; [None] is an exhausted recursion budget. *)
Fixpoint pollLoop (fuel : nat) (cfg : WaiterConfig) (remote : nat -> Poll)
  (k : nat) (elapsed : N) (errors : nat) : option WaitOutcome :=
  if (maxWait cfg <? elapsed)%N then Some TimeoutFailure
  else
    match fuel with
    | O => None
    | S fuel' =>
        let p := remote k in
        let afterSleep := (elapsed + latency p + Npos (pollInterval cfg))%N in
        match reply p with
        | Status s =>
            if isTerminal s then Some (Terminal s)
            else pollLoop fuel' cfg remote (S k) afterSleep errors
        | TransportFailure =>
            if (maxPollErrors cfg <=? errors)%nat then Some PollFailure
            else pollLoop fuel' cfg remote (S k) afterSleep (S errors)
        end
    end.

(** Modelled from the spec: [waitForScanToFinish], started at submission
    (elapsed time zero).  Every iteration adds at least one millisecond, so
    [maxWait + 1] iterations are a budget that is never exhausted. *)
Definition waitForScanToFinish (cfg : WaiterConfig) (remote : nat -> Poll) : option WaitOutcome :=
  pollLoop (S (N.to_nat (maxWait cfg))) cfg remote 0%nat 0%N 0%nat.

(* ================================================================== *)
(** ** Concrete runtimes, for running the embedding                    *)
(* ================================================================== *)

Fixpoint countCalls (history : list Event) : nat :=
  match history with
  | [] => 0%nat
  | Called _ _ :: rest => S (countCalls rest)
  | _ :: rest => countCalls rest
  end.

(** Collaborators that answer the n-th call of a run with the n-th reply
    of a script, and refuse the connection once the script is over. *)
Definition scripted (replies : list Reply) (history : list Event) (c : Call) : Reply :=
  nth (countCalls history) replies (Rejected (mkError Error "connect ECONNREFUSED")).

(** Whether [pattern] occurs in [s]: what a regular expression without
    metacharacters searches for. *)
Fixpoint occursIn (pattern s : string) : bool :=
  String.prefix pattern s
  || match s with
     | EmptyString => false
     | String _ rest => occursIn pattern rest
     end.

Definition sourceLocationTypeValue (t : SourceLocationType) : string :=
  match t with
  | LOCAL_DIRECTORY => "upload"
  | REMOTE_REPOSITORY => "git"
  end.

Definition scriptedRuntime (replies : list Reply) : Runtime :=
  {| answer := scripted replies;
     regexpValid := fun _ => true;
     regexpSearch := occursIn;
     locationTypeValue := sourceLocationTypeValue |}.

(** The configuration the test suite starts from ([getScaConfig]). *)
Definition testConfig (location : SourceLocationType) : ScaConfig :=
  {| webAppUrl := Some "";
     sourceLocationType := location;
     remoteRepositoryInfo := Some {| url := "" |};
     dependencyFileExtension := "";
     dependencyFolderExclusion := "";
     vulnerabilityThreshold := false;
     highThreshold := 0;
     mediumThreshold := 0;
     lowThreshold := 0 |}.

(* ================================================================== *)
(** ** Vocabulary of the properties                                    *)
(* ================================================================== *)

(** The run [w] after [this.projectId = id]. *)
Definition withProjectId (id : JsValue) (w : Run) : Run :=
  {| projectId := id; scanId := scanId w; events := events w |}.

(** A project whose [name] is a string in which the requested name, read
    as a regular expression, finds a match; one in which it finds none;
    and a project as the service lists it, with a string [name] and an
    identifier that is not empty. *)
Definition nameMatches (rt : Runtime) (projectName : string) (project : JsValue) : Prop :=
  exists n, getMember project "name" = Normal (JsString n)
            /\ regexpValid rt projectName = true
            /\ regexpSearch rt projectName n = true.

Definition nameDiffers (rt : Runtime) (projectName : string) (project : JsValue) : Prop :=
  exists n, getMember project "name" = Normal (JsString n)
            /\ regexpValid rt projectName = true
            /\ regexpSearch rt projectName n = false.

Definition listedProject (project : JsValue) : Prop :=
  exists n id, getMember project "name" = Normal (JsString n)
               /\ getMember project "id" = Normal id
               /\ truthy id = true.

(** A start-scan response carries the identifier [id]; it carries none. *)
Definition hasIdentifier (response id : JsValue) : Prop :=
  truthy response = true /\ getMember response "id" = Normal id /\ truthy id = true.

Definition lacksIdentifier (response : JsValue) : Prop :=
  truthy response = false
  \/ exists id, getMember response "id" = Normal id /\ truthy id = false.

(** [v.key] where the read cannot throw. *)
Definition memberOf (v : JsValue) (key : string) : JsValue :=
  match getMember v key with
  | Normal m => m
  | Abrupt _ => JsUndefined
  end.

(** The lines [printSummaryResult] logs for a summary that is an object. *)
Definition summaryLines (summary sid : JsValue) : list Event :=
  [Logged Info (LF ++ "----CxSCA risk report summary----");
   Logged Info ("Created on: " ++ toString (memberOf summary "createdOn"));
   Logged Info ("Direct packages: " ++ toString (memberOf summary "directPackages"));
   Logged Info ("High vulnerabilities: " ++ toString (memberOf summary "highVulnerabilityCount"));
   Logged Info ("Medium vulnerabilities: " ++ toString (memberOf summary "mediumVulnerabilityCount"));
   Logged Info ("Low vulnerabilities: " ++ toString (memberOf summary "lowVulnerabilityCount"));
   Logged Info ("Risk report ID: " ++ toString (memberOf summary "riskReportId"));
   Logged Info ("Scan ID: " ++ toString sid);
   Logged Info ("Risk score: " ++ toString (memberOf summary "riskScore"));
   Logged Info ("Total packages: " ++ toString (memberOf summary "totalPackages"));
   Logged Info ("Total outdated packages: " ++ toString (memberOf summary "totalOutdatedPackages") ++ LF)].

(** Every request to a collaborator; the upload command; requests other
    than GETs. *)
Definition isCall (e : Event) : bool :=
  match e with
  | Called _ _ => true
  | _ => false
  end.

Definition calls (es : list Event) : list Event := filter isCall es.

Definition isUploadCall (e : Event) : bool :=
  match e with
  | Called (ExecSync _) _ => true
  | _ => false
  end.

Definition isGetCall (e : Event) : bool :=
  match e with
  | Called (GetRequest _) _ => true
  | _ => false
  end.

(** A history in which a rejected call, if there is one, is the last
    event: nothing is asked and nothing is logged after it. *)
Fixpoint endsAtRejection (es : list Event) : bool :=
  match es with
  | [] => true
  | Called _ (Rejected _) :: rest =>
      match rest with
      | [] => true
      | _ :: _ => false
      end
  | _ :: rest => endsAtRejection rest
  end.

(** An upload-URL response from which no URL can be taken. *)
Definition lacksUrl (response : JsValue) : Prop :=
  truthy response = false
  \/ exists target, getMember response "url" = Normal target /\ truthy target = false.

(* ================================================================== *)
(** ** Properties of the threshold evaluator                           *)
(* ================================================================== *)

Lemma checkThreshold_In (config : ScaConfig) (counts : VulnerabilityCounts) (s : Severity)
  (e : ThresholdError) :
  In e (checkThreshold config counts s) <->
  countOf counts s > ceilingOf config s /\
  e = {| severity := s; observed := countOf counts s; ceiling := ceilingOf config s |}.
Proof.
  unfold checkThreshold.
  destruct (Z.ltb_spec (ceilingOf config s) (countOf counts s)) as [Hlt | Hge]; simpl.
  - split.
    + intros [<- | []]. split; [lia | reflexivity].
    + intros [_ ->]. now left.
  - split; [tauto | lia].
Qed.

Lemma checkThreshold_length (config : ScaConfig) (counts : VulnerabilityCounts) (s : Severity) :
  List.length (checkThreshold config counts s)
  = if ceilingOf config s <? countOf counts s then 1%nat else 0%nat.
Proof. unfold checkThreshold. now destruct (ceilingOf config s <? countOf counts s). Qed.

(** C1.  With the threshold flag enabled, the evaluator reports a
    violation for a severity exactly when the count of that severity is
    strictly greater than its ceiling, whatever the other two severities
    do; a severity is reported at most once, with its own count and
    ceiling.  Counts 3/8/4 against ceilings 1/5/10 give exactly two
    violations, high and medium, and [hasThresholdErrors] is true. *)
Theorem getScanSummary_violation_iff_count_above_ceiling :
  (forall (config : ScaConfig) (counts : VulnerabilityCounts),
      vulnerabilityThreshold config = true ->
      let errors := thresholdErrors (getScanSummary config counts) in
      (forall s : Severity,
          (exists e, In e errors /\ severity e = s) <-> countOf counts s > ceilingOf config s)
      /\ (forall e, In e errors ->
                    observed e = countOf counts (severity e)
                    /\ ceiling e = ceilingOf config (severity e))
      /\ NoDup (map severity errors))
  /\ (forall (web : option string) (loc : SourceLocationType)
             (repo : option RemoteRepositoryInfo) (ext excl : string),
         let summary := getScanSummary (mkScaConfig web loc repo ext excl true 1 5 10)
                                       (mkCounts 3 8 4) in
         map severity (thresholdErrors summary) = [High; Medium]
         /\ List.length (thresholdErrors summary) = 2%nat
         /\ hasThresholdErrors summary = true).
Proof.
  split.
  - intros config counts Hon errors. subst errors.
    unfold getScanSummary. cbn [thresholdErrors]. rewrite Hon.
    repeat split.
    + intros (e & Hin & Hs).
      rewrite !in_app_iff, !checkThreshold_In in Hin.
      destruct Hin as [[Hgt ->] | [[Hgt ->] | [Hgt ->]]]; cbn in Hs; now subst s.
    + intros Hgt.
      exists {| severity := s; observed := countOf counts s; ceiling := ceilingOf config s |}.
      split; [| reflexivity].
      rewrite !in_app_iff, !checkThreshold_In.
      destruct s; intuition.
    + rewrite !in_app_iff, !checkThreshold_In in H.
      destruct H as [[_ ->] | [[_ ->] | [_ ->]]]; reflexivity.
    + rewrite !in_app_iff, !checkThreshold_In in H.
      destruct H as [[_ ->] | [[_ ->] | [_ ->]]]; reflexivity.
    + unfold checkThreshold.
      destruct (ceilingOf config High <? countOf counts High),
               (ceilingOf config Medium <? countOf counts Medium),
               (ceilingOf config Low <? countOf counts Low); cbn;
        repeat constructor; cbn; intuition discriminate.
  - intros. repeat split.
Qed.

Lemma getScanSummary_violation_iff_count_above_ceiling_witness :
  exists e,
    In e (thresholdErrors (getScanSummary (mkScaConfig None LOCAL_DIRECTORY None "" "" true 1 5 10)
                                          (mkCounts 3 8 4)))
    /\ severity e = Medium.
Proof.
  apply (proj1 (proj1 getScanSummary_violation_iff_count_above_ceiling
                  (mkScaConfig None LOCAL_DIRECTORY None "" "" true 1 5 10)
                  (mkCounts 3 8 4) eq_refl)).
  simpl. lia.
Defined.

(* ================================================================== *)
(** ** Properties of the waiter                                        *)
(* ================================================================== *)

(** The recursion budget of [waitForScanToFinish] is never the reason it
    stops: the elapsed time grows by at least a millisecond per poll. *)
Lemma pollLoop_budget (cfg : WaiterConfig) (remote : nat -> Poll) :
  forall (fuel k : nat) (elapsed : N) (errors : nat),
    (N.to_nat (maxWait cfg) + 1 <= fuel + N.to_nat elapsed)%nat ->
    pollLoop fuel cfg remote k elapsed errors <> None.
Proof.
  induction fuel as [| fuel IH]; intros k elapsed errors Hfuel; cbn [pollLoop].
  - destruct (N.ltb_spec (maxWait cfg) elapsed); [discriminate | lia].
  - destruct (N.ltb_spec (maxWait cfg) elapsed); [discriminate |].
    destruct (reply (remote k)) as [s |].
    + destruct (isTerminal s); [discriminate |]. apply IH. lia.
    + destruct (maxPollErrors cfg <=? errors)%nat; [discriminate |]. apply IH. lia.
Qed.

(** A poll is only issued while its index times the interval is within
    the maximum wait; if all such polls report a non-terminal status the
    loop ends in a Timeout. *)
Lemma pollLoop_timeout (cfg : WaiterConfig) (remote : nat -> Poll) :
  (forall k : nat,
      (N.of_nat k * Npos (pollInterval cfg) <= maxWait cfg)%N ->
      exists s, reply (remote k) = Status s /\ isTerminal s = false) ->
  forall (fuel k : nat) (elapsed : N) (errors : nat),
    (N.of_nat k * Npos (pollInterval cfg) <= elapsed)%N ->
    pollLoop fuel cfg remote k elapsed errors = Some TimeoutFailure
    \/ pollLoop fuel cfg remote k elapsed errors = None.
Proof.
  intros Hpolls.
  induction fuel as [| fuel IH]; intros k elapsed errors Hk; cbn [pollLoop].
  - destruct (maxWait cfg <? elapsed)%N; auto.
  - destruct (N.ltb_spec (maxWait cfg) elapsed) as [| Hin]; [now left |].
    destruct (Hpolls k) as (s & -> & ->); [lia |].
    apply IH. lia.
Qed.

(** C9.  When every poll that falls within the configured maximum wait
    reports a non-terminal status, the waiter returns (its recursion
    budget is not what stops it) and what it returns is the Timeout
    failure, which is none of the remote terminal statuses: not Failed,
    not Canceled, and not a false Finished. *)
Theorem waitForScanToFinish_times_out :
  forall (cfg : WaiterConfig) (remote : nat -> Poll),
    (forall k : nat,
        (N.of_nat k * Npos (pollInterval cfg) <= maxWait cfg)%N ->
        exists s, reply (remote k) = Status s /\ isTerminal s = false) ->
    waitForScanToFinish cfg remote = Some TimeoutFailure
    /\ (forall s : ScanStatus, waitForScanToFinish cfg remote <> Some (Terminal s))
    /\ TimeoutFailure <> Terminal Failed
    /\ TimeoutFailure <> Terminal Canceled
    /\ TimeoutFailure <> Terminal Finished.
Proof.
  intros cfg remote Hpolls.
  assert (Hout : waitForScanToFinish cfg remote = Some TimeoutFailure).
  { unfold waitForScanToFinish.
    destruct (pollLoop_timeout cfg remote Hpolls
                (S (N.to_nat (maxWait cfg))) 0%nat 0%N 0%nat) as [H | H]; [lia | exact H |].
    exfalso. revert H. apply pollLoop_budget. lia. }
  rewrite Hout. repeat split; intros; discriminate.
Qed.

Lemma waitForScanToFinish_times_out_witness :
  waitForScanToFinish (mkWaiterConfig 2 7 1) (fun _ => mkPoll (Status Running) 3)
  = Some TimeoutFailure.
Proof.
  apply (waitForScanToFinish_times_out (mkWaiterConfig 2 7 1)
           (fun _ => mkPoll (Status Running) 3)).
  intros k _. exists Running. split; reflexivity.
Defined.

(* ================================================================== *)
(** ** Properties of [ScaClient]                                       *)
(* ================================================================== *)

(** Unfolding of the monad's plumbing, leaving strings and the
    collaborators' answers alone. *)
Ltac async_unfold :=
  unfold getRequest, postRequest, await, log, stopwatchStart, getProjectId, getScanId,
    setProjectId, setScanId, record, bind, tryCatch, ret, throw, lift;
  cbn [events projectId scanId fst snd].

(** Histories in the form [events w ++ [e1; ...; en]]. *)
Ltac norm_events :=
  unfold record, withProjectId; cbn [events projectId scanId fst snd];
  rewrite <- ?app_assoc; cbn [app].

(** Closes [exists rest, history = prefix ++ rest]. *)
Ltac events_tail := eexists; norm_events; reflexivity.

Lemma record_events (e : Event) (w : Run) : events (record e w) = (events w ++ [e])%list.
Proof. reflexivity. Qed.

Lemma app_cons_assoc {A} (l : list A) (a : A) (l' : list A) :
  ((l ++ [a]) ++ l' = l ++ a :: l')%list.
Proof. now rewrite <- app_assoc. Qed.

(** C8.  Building the web report link always completes normally.  With a
    configured, non-empty web application URL the link is that URL
    followed by [/#/projects/<project id>/reports/<report id>] and nothing
    is logged; with the URL absent or empty the link is the empty string
    and one warning is recorded. *)
Theorem getWebReportLink_never_throws :
  forall (config : ScaConfig) (reportId : JsValue) (w : Run),
    (exists link w', getWebReportLink config reportId w = (Normal link, w'))
    /\ (forall base : string,
           webAppUrl config = Some base -> base <> "" ->
           getWebReportLink config reportId w
           = (Normal (base ++ "/#/projects/" ++ toString (projectId w)
                           ++ "/reports/" ++ toString reportId), w))
    /\ (webAppUrl config = None \/ webAppUrl config = Some "" ->
        getWebReportLink config reportId w
        = (Normal "",
           record (Logged Warning
                     "Unable to generate web report link. Web app URL is not specified.") w)).
Proof.
  intros config reportId w. unfold getWebReportLink.
  destruct (webAppUrl config) as [base |] eqn:Hurl.
  - destruct (String.eqb_spec base "") as [-> | Hne].
    + async_unfold. repeat split; eauto.
      intros base [= <-] Hne. now elim Hne.
    + async_unfold. repeat split; eauto.
      * intros base' [= <-] _. destruct w; reflexivity.
      * intros [H | [= H]]; [discriminate | now elim Hne].
  - async_unfold. repeat split; eauto. intros base [=].
Qed.

Lemma getWebReportLink_never_throws_witness :
  getWebReportLink
    (mkScaConfig (Some "https://sca.example.net") REMOTE_REPOSITORY None "" "" false 0 0 0)
    (JsString "r-7")
    (mkRun (JsString "p-3") (JsString "s-5") [])
  = (Normal "https://sca.example.net/#/projects/p-3/reports/r-7",
     mkRun (JsString "p-3") (JsString "s-5") []).
Proof.
  apply (proj1 (proj2 (getWebReportLink_never_throws
                         (mkScaConfig (Some "https://sca.example.net") REMOTE_REPOSITORY
                                      None "" "" false 0 0 0)
                         (JsString "r-7")
                         (mkRun (JsString "p-3") (JsString "s-5") [])))
           "https://sca.example.net").
  - reflexivity.
  - discriminate.
Defined.

Section ProjectResolution.

Variable rt : Runtime.
Variable projectName : string.

Lemma searchProjects_events (projects : list JsValue) (w : Run) :
  events (snd (searchProjects rt projectName projects w)) = events w.
Proof.
  revert w. induction projects as [| p rest IH]; intros w; cbn [searchProjects].
  - reflexivity.
  - async_unfold.
    destruct (getMember p "name") as [name | e]; [| reflexivity].
    destruct (stringMatch rt name projectName) as [[|] | e]; [| apply IH | reflexivity].
    destruct (getMember p "id"); reflexivity.
Qed.

Lemma searchProjects_none_matches (projects : list JsValue) (w : Run) :
  Forall (nameDiffers rt projectName) projects ->
  searchProjects rt projectName projects w = (Normal tt, w).
Proof.
  induction 1 as [| p rest (n & Hname & Hvalid & Hsearch) _ IH]; cbn [searchProjects].
  - reflexivity.
  - async_unfold. rewrite Hname. cbn [stringMatch]. rewrite Hvalid, Hsearch. exact IH.
Qed.

Lemma searchProjects_first_match (before after : list JsValue) (p id : JsValue) (w : Run) :
  Forall (nameDiffers rt projectName) before ->
  nameMatches rt projectName p ->
  getMember p "id" = Normal id ->
  searchProjects rt projectName (before ++ p :: after) w = (Normal tt, withProjectId id w).
Proof.
  intros Hbefore (n & Hname & Hvalid & Hsearch) Hid.
  induction Hbefore as [| q rest (m & Hm & _ & Hq) _ IH]; cbn [searchProjects app].
  - async_unfold. rewrite Hname. cbn [stringMatch]. rewrite Hvalid, Hsearch, Hid. reflexivity.
  - async_unfold. rewrite Hm. cbn [stringMatch]. rewrite Hvalid, Hq. exact IH.
Qed.

(** Among listed projects, either no name matches or there is a first
    one that does (when the requested name compiles). *)
Lemma first_match_or_none (projects : list JsValue) :
  regexpValid rt projectName = true ->
  Forall listedProject projects ->
  Forall (nameDiffers rt projectName) projects
  \/ exists before p after id,
      projects = (before ++ p :: after)%list
      /\ Forall (nameDiffers rt projectName) before
      /\ nameMatches rt projectName p
      /\ getMember p "id" = Normal id /\ truthy id = true.
Proof.
  intros Hvalid. induction 1 as [| p rest (n & id & Hname & Hid & Htruthy) _ IH].
  - left. constructor.
  - destruct (regexpSearch rt projectName n) eqn:Hsearch.
    + right. exists [], p, rest, id. repeat split; auto. now exists n.
    + assert (Hp : nameDiffers rt projectName p) by now exists n.
      destruct IH as [IH | (before & q & after & qid & -> & Hb & Hq & Hqid & Hqt)].
      * left. now constructor.
      * right. exists (p :: before), q, after, qid. repeat split; auto.
Qed.

Lemma getProjectIdByName_run (w : Run) :
  projectName <> "" ->
  getProjectIdByName rt projectName w
  = match answer rt (events w) (GetRequest PROJECTS) with
    | Returned collection =>
        let w' := record (Called (GetRequest PROJECTS) (Returned collection)) w in
        match iterate collection with
        | Normal projects => searchProjects rt projectName projects w'
        | Abrupt e => (Abrupt e, w')
        end
    | Rejected e => (Abrupt e, record (Called (GetRequest PROJECTS) (Rejected e)) w)
    end.
Proof.
  intros Hne. unfold getProjectIdByName, getAllProjects.
  destruct (String.eqb_spec projectName ""); [contradiction |].
  async_unfold.
  destruct (answer rt (events w) (GetRequest PROJECTS)) as [collection | e]; [| reflexivity].
  destruct (iterate collection); reflexivity.
Qed.

End ProjectResolution.

Section ResolveProject.

Variable rt : Runtime.

Lemma resolveProject_run (projectName : string) (w : Run) :
  resolveProject rt projectName w
  = let w1 := record (Logged Info ("Resolving project by name: " ++ projectName)) w in
    match getProjectIdByName rt projectName w1 with
    | (Normal _, w2) =>
        if truthy (projectId w2)
        then (Normal tt,
              record (Logged Info ("Project already exists with ID: "
                                     ++ toString (projectId w2))) w2)
        else
          let w3 := record (Logged Info "Project not found, creating a new one.") w2 in
          let creation := PostRequest PROJECTS (JsObject [("name", JsString projectName)]) in
          match answer rt (events w3) creation with
          | Returned created =>
              let w4 := record (Called creation (Returned created)) w3 in
              match getMember created "id" with
              | Normal id =>
                  (Normal tt,
                   record (Logged Info ("Created a project with ID: " ++ toString id))
                          (withProjectId id w4))
              | Abrupt e => (Abrupt e, w4)
              end
          | Rejected e => (Abrupt e, record (Called creation (Rejected e)) w3)
          end
    | (Abrupt e, w2) => (Abrupt e, w2)
    end.
Proof.
  unfold resolveProject, createProject, withProjectId. async_unfold.
  destruct (getProjectIdByName rt projectName _) as [[[] | e] w2]; [| reflexivity].
  cbn [events projectId scanId].
  destruct (truthy (projectId w2)); cbn [negb]; [reflexivity |].
  destruct (answer rt _ _) as [created | e]; [| reflexivity].
  cbn [events projectId scanId].
  destruct (getMember created "id"); reflexivity.
Qed.

End ResolveProject.

(** C7.  [resolveProject] with an empty name throws the error asking for a
    non-empty project name after its first log line, before anything is
    requested.  With a non-empty name its first request is the GET of the
    whole project collection.  On a client that has not resolved a project
    yet, when that collection is searched and no project's name matches,
    the next request is the POST that creates a project of that name, and
    when that POST returns an object its [id] becomes the client's
    project id. *)
Theorem resolveProject_fetches_searches_creates :
  forall rt : Runtime,
    (forall w : Run,
        resolveProject rt "" w
        = (Abrupt (mkError Error "Non-empty project name must be provided."),
           record (Logged Info "Resolving project by name: ") w))
    /\ (forall (projectName : string) (w : Run),
           projectName <> "" ->
           let h1 := (events w ++ [Logged Info ("Resolving project by name: " ++ projectName)])%list in
           let fetch := GetRequest "/risk-management/projects" in
           let fetched := answer rt h1 fetch in
           (exists rest,
               events (snd (resolveProject rt projectName w))
               = (h1 ++ Called fetch fetched :: rest)%list)
           /\ (forall (collection : JsValue) (projects : list JsValue),
                  truthy (projectId w) = false ->
                  fetched = Returned collection ->
                  iterate collection = Normal projects ->
                  Forall (nameDiffers rt projectName) projects ->
                  let h2 := (h1 ++ [Called fetch fetched;
                                    Logged Info "Project not found, creating a new one."])%list in
                  let creation := PostRequest "/risk-management/projects"
                                              (JsObject [("name", JsString projectName)]) in
                  (exists rest,
                      events (snd (resolveProject rt projectName w))
                      = (h2 ++ Called creation (answer rt h2 creation) :: rest)%list)
                  /\ (forall created id : JsValue,
                         answer rt h2 creation = Returned created ->
                         getMember created "id" = Normal id ->
                         fst (resolveProject rt projectName w) = Normal tt
                         /\ projectId (snd (resolveProject rt projectName w)) = id))).
Proof.
  intros rt. split.
  - intros w. reflexivity.
  - intros projectName w Hne h1 fetch fetched. subst h1 fetch fetched.
    rewrite resolveProject_run. cbv zeta.
    rewrite (getProjectIdByName_run rt projectName _ Hne).
    change PROJECTS with "/risk-management/projects".
    norm_events.
    destruct (answer rt _ (GetRequest "/risk-management/projects")) as [collection | e] eqn:Hfetched.
    + split.
      * cbv zeta. destruct (iterate collection) as [projects | e].
        -- match goal with |- context [searchProjects rt projectName projects ?w1] =>
             pose proof (searchProjects_events rt projectName projects w1) as Hev end.
           destruct (searchProjects rt projectName projects _) as [[[] | e] w2];
             cbn [snd] in Hev; revert Hev; norm_events; intros Hev.
           ++ destruct (truthy (projectId w2)).
              ** norm_events. rewrite Hev. events_tail.
              ** destruct (answer rt _ (PostRequest _ _)); [destruct (getMember _ _) |];
                   norm_events; rewrite Hev; events_tail.
           ++ rewrite Hev. events_tail.
        -- events_tail.
      * intros collection' projects Hfresh [= <-] Hiter Hnone.
        cbv zeta. rewrite Hiter.
        rewrite (searchProjects_none_matches rt projectName projects _ Hnone).
        norm_events. rewrite Hfresh.
        split.
        -- destruct (answer rt _ (PostRequest _ _)) as [created | e];
             [destruct (getMember created "id") |]; events_tail.
        -- intros created id -> ->. split; reflexivity.
    + split.
      * events_tail.
      * intros collection projects _ [=].
Qed.

Lemma resolveProject_fetches_searches_creates_witness :
  let rt := scriptedRuntime
              [Returned (JsArray [JsObject [("id", JsString "p-1"); ("name", JsString "other")]]);
               Returned (JsObject [("id", JsString "p-9")])] in
  fst (resolveProject rt "billing" newScaClient) = Normal tt
  /\ projectId (snd (resolveProject rt "billing" newScaClient)) = JsString "p-9".
Proof.
  intros rt.
  destruct (proj2 (resolveProject_fetches_searches_creates rt) "billing" newScaClient)
    as [_ Hcreates]; [discriminate |].
  destruct (Hcreates
              (JsArray [JsObject [("id", JsString "p-1"); ("name", JsString "other")]])
              [JsObject [("id", JsString "p-1"); ("name", JsString "other")]]
              eq_refl eq_refl eq_refl) as [_ Hadopts].
  - constructor; [| constructor]. exists "other". repeat split; reflexivity.
  - exact (Hadopts (JsObject [("id", JsString "p-9")]) (JsString "p-9") eq_refl eq_refl).
Defined.

(** Why C7 speaks of a client that has not resolved a project yet: the
    search only ever assigns [projectId], so a client that already holds
    one keeps it when no name matches, and creates nothing. *)
Lemma resolveProject_keeps_resolved_project (rt : Runtime) (projectName : string) (w : Run)
  (collection : JsValue) (projects : list JsValue) :
  projectName <> "" ->
  truthy (projectId w) = true ->
  answer rt (events w ++ [Logged Info ("Resolving project by name: " ++ projectName)])%list
         (GetRequest "/risk-management/projects") = Returned collection ->
  iterate collection = Normal projects ->
  Forall (nameDiffers rt projectName) projects ->
  resolveProject rt projectName w
  = (Normal tt,
     {| projectId := projectId w;
        scanId := scanId w;
        events :=
          events w ++
            [Logged Info ("Resolving project by name: " ++ projectName);
             Called (GetRequest "/risk-management/projects") (Returned collection);
             Logged Info ("Project already exists with ID: " ++ toString (projectId w))] |}).
Proof.
  intros Hne Hheld Hfetched Hiter Hnone.
  rewrite resolveProject_run. cbv zeta.
  rewrite (getProjectIdByName_run rt projectName _ Hne).
  change PROJECTS with "/risk-management/projects".
  norm_events. rewrite Hfetched. cbv zeta. rewrite Hiter.
  rewrite (searchProjects_none_matches rt projectName projects _ Hnone).
  norm_events. rewrite Hheld. norm_events. reflexivity.
Qed.

(** C10.  Once the project collection has been fetched, the client binds
    to the first project, in the order of the collection, in whose name
    the requested name, compiled as a regular expression, finds a match:
    with every earlier project's name not matching, that project's
    identifier becomes the project id and no project is created.  When a
    creation request is issued for a collection of listed projects, no
    project's name matched. *)
Theorem resolveProject_binds_first_regexp_match :
  forall (rt : Runtime) (projectName : string) (w : Run)
         (collection : JsValue) (projects : list JsValue),
    projectName <> "" ->
    answer rt (events w ++ [Logged Info ("Resolving project by name: " ++ projectName)])%list
           (GetRequest "/risk-management/projects") = Returned collection ->
    iterate collection = Normal projects ->
    (forall (before : list JsValue) (p : JsValue) (after : list JsValue) (id : JsValue),
        projects = (before ++ p :: after)%list ->
        Forall (nameDiffers rt projectName) before ->
        nameMatches rt projectName p ->
        getMember p "id" = Normal id ->
        truthy id = true ->
        resolveProject rt projectName w
        = (Normal tt,
           {| projectId := id;
              scanId := scanId w;
              events :=
                events w ++
                  [Logged Info ("Resolving project by name: " ++ projectName);
                   Called (GetRequest "/risk-management/projects") (Returned collection);
                   Logged Info ("Project already exists with ID: " ++ toString id)] |}))
    /\ (Forall listedProject projects ->
        forall new : list Event,
          events (snd (resolveProject rt projectName w)) = (events w ++ new)%list ->
          existsb isCreateProjectCall new = true ->
          Forall (nameDiffers rt projectName) projects).
Proof.
  intros rt projectName w collection projects Hne Hfetched Hiter.
  assert (Hbind : forall before p after id,
             projects = (before ++ p :: after)%list ->
             Forall (nameDiffers rt projectName) before ->
             nameMatches rt projectName p ->
             getMember p "id" = Normal id ->
             truthy id = true ->
             resolveProject rt projectName w
             = (Normal tt,
                {| projectId := id;
                   scanId := scanId w;
                   events :=
                     events w ++
                       [Logged Info ("Resolving project by name: " ++ projectName);
                        Called (GetRequest "/risk-management/projects") (Returned collection);
                        Logged Info ("Project already exists with ID: " ++ toString id)] |})).
  { intros before p after id -> Hbefore Hp Hid Htruthy.
    rewrite resolveProject_run. cbv zeta.
    rewrite (getProjectIdByName_run rt projectName _ Hne).
    change PROJECTS with "/risk-management/projects".
    norm_events. rewrite Hfetched. cbv zeta. rewrite Hiter.
    rewrite (searchProjects_first_match rt projectName before after p id _ Hbefore Hp Hid).
    norm_events. rewrite Htruthy. norm_events. reflexivity. }
  split; [exact Hbind |].
  intros Hlisted new Hnew Hcreated.
  destruct (regexpValid rt projectName) eqn:Hvalid.
  - destruct (first_match_or_none rt projectName projects Hvalid Hlisted)
      as [Hnone | (before & p & after & id & Hsplit & Hbefore & Hp & Hid & Htruthy)];
      [exact Hnone |].
    rewrite (Hbind before p after id Hsplit Hbefore Hp Hid Htruthy) in Hnew.
    cbn [snd events] in Hnew. apply app_inv_head in Hnew. subst new. discriminate.
  - destruct Hlisted as [| p rest (n & id & Hname & _) _]; [constructor |].
    rewrite resolveProject_run in Hnew. cbv zeta in Hnew.
    rewrite (getProjectIdByName_run rt projectName _ Hne) in Hnew.
    change PROJECTS with "/risk-management/projects" in Hnew.
    revert Hnew. norm_events. rewrite Hfetched. cbv zeta. rewrite Hiter.
    cbn [searchProjects]. async_unfold. rewrite Hname. cbn [stringMatch]. rewrite Hvalid.
    norm_events. intros Hnew. apply app_inv_head in Hnew. subst new. discriminate.
Qed.

Lemma resolveProject_binds_first_regexp_match_witness :
  let listed := [JsObject [("id", JsString "p-1"); ("name", JsString "billing-service-v2")];
                 JsObject [("id", JsString "p-2"); ("name", JsString "billing")]] in
  resolveProject (scriptedRuntime [Returned (JsArray listed)]) "billing" newScaClient
  = (Normal tt,
     {| projectId := JsString "p-1";
        scanId := JsString "";
        events :=
          [Logged Info "Resolving project by name: billing";
           Called (GetRequest "/risk-management/projects") (Returned (JsArray listed));
           Logged Info "Project already exists with ID: p-1"] |}).
Proof.
  intros listed.
  destruct (resolveProject_binds_first_regexp_match
              (scriptedRuntime [Returned (JsArray listed)]) "billing" newScaClient
              (JsArray listed) listed) as [Hbinds _];
    [discriminate | reflexivity | reflexivity |].
  apply (Hbinds [] (JsObject [("id", JsString "p-1"); ("name", JsString "billing-service-v2")])
           [JsObject [("id", JsString "p-2"); ("name", JsString "billing")]]
           (JsString "p-1")); try reflexivity.
  - constructor.
  - exists "billing-service-v2". repeat split; reflexivity.
Defined.

(** One step of a run: case analysis on the next thing the outcome depends
    on (a collaborator's answer, a member read, a truth test). *)
Ltac run_step :=
  match goal with
  | |- context [match answer ?rt ?h ?c with _ => _ end] => destruct (answer rt h c) eqn:?
  | |- context [match getMember ?v ?k with _ => _ end] => destruct (getMember v k) eqn:?
  | |- context [if strictEqualsZero ?v then _ else _] => destruct (strictEqualsZero v) eqn:?
  | |- context [negb (truthy ?v)] => destruct (truthy v) eqn:?; cbn [negb]
  | |- context [if truthy ?v then _ else _] => destruct (truthy v) eqn:?
  end; cbn [events projectId scanId fst snd].

(** What [createScan] does with a submission that threw: nothing more is
    asked of anyone, the fields are left as the submission left them, and
    the error is thrown again as a plain [Error] whose message is the
    original one behind the prefix of [createScan]. *)
Lemma createScan_rethrows (rt : Runtime) (config : ScaConfig) (sourceLocation : string)
  (w w' : Run) (e : JsError) :
  (match sourceLocationType config with
   | REMOTE_REPOSITORY => submitSourceFromRemoteRepo rt config
   | LOCAL_DIRECTORY => submitSourceFromLocalDir rt config sourceLocation
   end) (record (Logged Info creatingScanBanner) w) = (Abrupt e, w') ->
  createScan rt config sourceLocation w
  = (Abrupt (mkError Error ("Error creating CxSCA scan. " ++ message e)), w').
Proof.
  intros Hsubmit. unfold createScan.
  unfold bind at 1. unfold log at 1. unfold tryCatch. unfold bind at 1.
  rewrite Hsubmit. reflexivity.
Qed.

(** C2 (what the code does).  With a remote-repository configuration whose
    [remoteRepositoryInfo] is present and whose [url] is the empty string
    -- the configuration the test suite starts from -- [createScan] throws
    nothing before the network: after three log lines it posts the
    start-scan request, with the empty string as the handler's url, and
    when the service answers with an identifier the scan is created. *)
Theorem createScan_posts_empty_remote_url :
  forall (rt : Runtime) (sourceLocation : string) (w : Run)
         (web : option string) (ext excl : string) (thr : bool) (h m l : Z),
    let config := mkScaConfig web REMOTE_REPOSITORY (Some (mkRemoteRepositoryInfo ""))
                              ext excl thr h m l in
    let history := (events w ++ [Logged Info creatingScanBanner;
                                 Logged Info "Using remote repository flow.";
                                 Logged Info "Sending a request to start scan."])%list in
    let request := PostRequest "/api/scans"
                     (startScanRequest rt (projectId w) REMOTE_REPOSITORY (JsString "")) in
    (exists rest : list Event,
        events (snd (createScan rt config sourceLocation w))
        = (history ++ Called request (answer rt history request) :: rest)%list)
    /\ createScan (scriptedRuntime [Returned (JsObject [("id", JsString "scan-1")])])
                  (testConfig REMOTE_REPOSITORY) sourceLocation newScaClient
       = (Normal tt,
          {| projectId := JsString "";
             scanId := JsString "scan-1";
             events :=
               [Logged Info creatingScanBanner;
                Logged Info "Using remote repository flow.";
                Logged Info "Sending a request to start scan.";
                Called (PostRequest "/api/scans"
                          (JsObject
                             [("project",
                               JsObject [("id", JsString "");
                                         ("type", JsString "git");
                                         ("handler", JsObject [("url", JsString "")])])]))
                       (Returned (JsObject [("id", JsString "scan-1")]));
                StopwatchStarted;
                Logged Info "Scan started successfully. Scan ID: scan-1"] |}).
Proof.
  intros rt sourceLocation w web ext excl thr h m l config history request.
  split; [| reflexivity].
  unfold createScan, submitSourceFromRemoteRepo, sendStartScanRequest, extractScanIdFrom.
  cbn [sourceLocationType remoteRepositoryInfo config url].
  async_unfold.
  change CREATE_SCAN with "/api/scans". fold request.
  assert (Hhistory : (((events w ++ [Logged Info creatingScanBanner])
                         ++ [Logged Info "Using remote repository flow."])
                        ++ [Logged Info "Sending a request to start scan."])%list = history).
  { unfold history. now rewrite <- !app_assoc. }
  rewrite Hhistory.
  destruct (answer rt history request) as [response | e]; cbn [events snd].
  - destruct (truthy response); [destruct (getMember response "id") as [id | e];
                                 [destruct (truthy id) |] |];
      cbn [events snd]; rewrite ?Hhistory; events_tail.
  - events_tail.
Qed.

Ltac in_cases H :=
  cbn [In] in H; repeat (destruct H as [H | H]); try discriminate H; try contradiction.

Lemma extractScanIdFrom_cases (response : JsValue) :
  (exists id, extractScanIdFrom response = Normal id /\ hasIdentifier response id)
  \/ (extractScanIdFrom response = Abrupt (mkError Error "Unable to get scan ID.")
      /\ lacksIdentifier response).
Proof.
  unfold extractScanIdFrom, hasIdentifier, lacksIdentifier.
  destruct (truthy response) eqn:Hresponse; [| right; auto].
  destruct (getMember response "id") as [id | e] eqn:Hid.
  - destruct (truthy id) eqn:Htruthy.
    + left. exists id. auto.
    + right. split; [reflexivity |]. right. exists id. auto.
  - destruct response; discriminate.
Qed.

Lemma extractScanIdFrom_present (response id : JsValue) :
  hasIdentifier response id -> extractScanIdFrom response = Normal id.
Proof.
  intros (Hresponse & Hid & Htruthy). unfold extractScanIdFrom.
  now rewrite Hresponse, Hid, Htruthy.
Qed.

Lemma extractScanIdFrom_absent (response : JsValue) :
  lacksIdentifier response ->
  extractScanIdFrom response = Abrupt (mkError Error "Unable to get scan ID.").
Proof.
  intros [Hresponse | (id & Hid & Hfalsy)]; unfold extractScanIdFrom.
  - now rewrite Hresponse.
  - rewrite Hid, Hfalsy. now destruct (truthy response).
Qed.

(** After the start-scan request has been answered, [createScan] goes by
    what [extractScanIdFrom] makes of the answer; on either flow it posts
    at most one start-scan request. *)
Lemma createScan_after_start_scan (rt : Runtime) (config : ScaConfig)
  (sourceLocation : string) (w : Run) :
  let outcome := createScan rt config sourceLocation w in
  exists new : list Event,
    events (snd outcome) = (events w ++ new)%list
    /\ (List.length (filter isStartScanCall new) <= 1)%nat
    /\ (forall request response : JsValue,
           In (Called (PostRequest "/api/scans" request) (Returned response)) new ->
           match extractScanIdFrom response with
           | Normal id =>
               outcome = (Normal tt,
                          {| projectId := projectId w; scanId := id;
                             events := events w ++ new |})
               /\ In StopwatchStarted new
           | Abrupt _ =>
               fst outcome
               = Abrupt (mkError Error "Error creating CxSCA scan. Unable to get scan ID.")
               /\ scanId (snd outcome) = scanId w
               /\ ~ In StopwatchStarted new
           end).
Proof.
  intros outcome. subst outcome.
  unfold createScan.
  destruct (sourceLocationType config).
  - unfold submitSourceFromLocalDir, getSourceUploadUrl, uploadToAWS, sendStartScanRequest.
    async_unfold.
    repeat run_step.
    all: change CREATE_SCAN with "/api/scans" in *; change ZIP_UPLOAD with "/api/uploads" in *.
    all: try (match goal with
              | |- context [extractScanIdFrom ?v] =>
                  destruct (extractScanIdFrom_cases v) as [(? & Hex & _) | (Hex & _)];
                  rewrite Hex
              end; cbn [events projectId scanId fst snd message]).
    all: eexists; split; [norm_events; reflexivity |].
    all: split; [cbn; lia |].
    all: intros request response Hin; in_cases Hin.
    all: injection Hin as <- <-.
    all: match goal with H : extractScanIdFrom _ = _ |- _ => rewrite H end.
    all: repeat split; try (norm_events; reflexivity).
    all: try (cbn [In]; repeat (first [left; reflexivity | right])).
    all: try (cbn [In]; intuition discriminate).
  - unfold submitSourceFromRemoteRepo, sendStartScanRequest.
    destruct (remoteRepositoryInfo config).
    all: async_unfold.
    all: repeat run_step.
    all: change CREATE_SCAN with "/api/scans" in *.
    all: try (match goal with
              | |- context [extractScanIdFrom ?v] =>
                  destruct (extractScanIdFrom_cases v) as [(? & Hex & _) | (Hex & _)];
                  rewrite Hex
              end; cbn [events projectId scanId fst snd message]).
    all: eexists; split; [norm_events; reflexivity |].
    all: split; [cbn; lia |].
    all: intros request response Hin; in_cases Hin.
    all: injection Hin as <- <-.
    all: match goal with H : extractScanIdFrom _ = _ |- _ => rewrite H end.
    all: repeat split; try (norm_events; reflexivity).
    all: try (cbn [In]; repeat (first [left; reflexivity | right])).
    all: try (cbn [In]; intuition discriminate).
Qed.

(** C3 (what the code does).  When the archive produced for a
    local-directory submission holds no file ([fileCount === 0]), the
    submission throws a [TaskSkippedError] right after zipping, and no
    network call has been made: no upload URL was requested, nothing was
    uploaded, no scan was started.  But the submission runs inside the
    [try] of [createScan], its only caller, whose [catch] throws a new
    plain [Error] with its own prefix before the message of whatever it
    caught.  So what [createScan] throws for the skip is an [Error] -- the
    class of what it throws for a hard failure, such as an upload URL that
    could not be got -- and the two differ by their message text alone.
    The scan id is left as it was. *)
Theorem createScan_reports_skipped_archive_as_error :
  forall (rt : Runtime) (config : ScaConfig) (sourceLocation : string) (w : Run),
    sourceLocationType config = LOCAL_DIRECTORY ->
    let banner :=
      "----------------------------------- Creating CxSCA Scan ------------------------------------" in
    let submitted :=
      submitSourceFromLocalDir rt config sourceLocation (record (Logged Info banner) w) in
    let created := createScan rt config sourceLocation w in
    exists new : list Event,
      events (snd created) = (events w ++ new)%list
      /\ (forall file zipResult : JsValue,
             In (Called (ZipDirectory (dependencyFileExtension config)
                                      (dependencyFolderExclusion config)
                                      sourceLocation file)
                        (Returned zipResult)) new ->
             getMember zipResult "fileCount" = Normal (JsNumber 0) ->
             fst submitted
             = Abrupt (mkError TaskSkippedError "Zip file is empty: no source to scan")
             /\ fst created
                = Abrupt (mkError Error
                            "Error creating CxSCA scan. Zip file is empty: no source to scan")
             /\ networkCalls new = []
             /\ scanId (snd created) = scanId w)
      /\ (forall response : JsValue,
             In (Called (PostRequest "/api/uploads" (JsObject [])) (Returned response)) new ->
             truthy response = false ->
             fst submitted = Abrupt (mkError Error "Unable to get the upload URL.")
             /\ fst created
                = Abrupt (mkError Error
                            "Error creating CxSCA scan. Unable to get the upload URL.")).
Proof.
  intros rt config sourceLocation w Hlocal banner submitted created.
  subst submitted created banner.
  unfold createScan, creatingScanBanner. rewrite Hlocal.
  unfold submitSourceFromLocalDir, getSourceUploadUrl, uploadToAWS, sendStartScanRequest.
  async_unfold.
  repeat run_step.
  all: change CREATE_SCAN with "/api/scans" in *; change ZIP_UPLOAD with "/api/uploads" in *.
  all: try (match goal with
       | |- context [extractScanIdFrom ?v] =>
           destruct (extractScanIdFrom_cases v) as [(? & Hex & Hhas) | (Hex & Hlacks)];
           rewrite Hex
       end; cbn [events projectId scanId fst snd message]).
  all: eexists; split; [norm_events; reflexivity |].
  all: split.
  all: try (intros file zipResult Hin; in_cases Hin; fail).
  all: try (intros response Hin; in_cases Hin; fail).
  all: try (intros response Hin Hfalsy; in_cases Hin; injection Hin as <-; congruence).
  all: try (intros response Hin Hfalsy; in_cases Hin; injection Hin as <-;
            split; reflexivity).
  all: intros file zipResult Hin Hcount; in_cases Hin; injection Hin as <- <-.
  all: try (rewrite Hcount in *; congruence).
  all: try (match goal with
            | Hm : getMember ?z "fileCount" = Normal ?v, Hz : strictEqualsZero ?v = false |- _ =>
                rewrite Hcount in Hm; injection Hm as <-; discriminate Hz
            end).
  all: repeat split; reflexivity.
Qed.

Lemma createScan_reports_skipped_archive_as_error_witness :
  let rt := scriptedRuntime [Returned (JsString "/tmp/cxsrc-1.zip");
                             Returned (JsObject [("fileCount", JsNumber 0)])] in
  let created := createScan rt (testConfig LOCAL_DIRECTORY) "/src" newScaClient in
  fst created
  = Abrupt (mkError Error "Error creating CxSCA scan. Zip file is empty: no source to scan")
  /\ networkCalls (events (snd created)) = [].
Proof.
  intros rt created.
  destruct (createScan_reports_skipped_archive_as_error
              rt (testConfig LOCAL_DIRECTORY) "/src" newScaClient eq_refl)
    as (new & Hnew & Hskipped & _).
  cbn [newScaClient events app] in Hnew. fold created in Hnew, Hskipped.
  destruct (Hskipped (JsString "/tmp/cxsrc-1.zip") (JsObject [("fileCount", JsNumber 0)]))
    as (_ & Hcreated & Hcalls & _).
  - rewrite <- Hnew. vm_compute. repeat (first [left; reflexivity | right]).
  - reflexivity.
  - split; [exact Hcreated | rewrite Hnew; exact Hcalls].
Defined.

(** C5 (what the code does).  In a local-directory submission the upload
    is the command [curl -X PUT -L <url> -H Content-Type: -T <file>], each
    argument in double quotes, run by [execSync] for the file named in this
    run and the [url] of the answer to the single upload-URL request.  The
    command carries no option that turns an HTTP error status into a
    failure of the command, and the client never looks at what the command
    printed: whenever [execSync] returns, whatever it returns, the
    start-scan request for that same URL is posted next, and the submission
    ends as that request ends.  So an upload that the storage refused with
    an error status is followed by a start-scan request all the same.
    Only an [execSync] that throws stops the submission: its error is
    thrown on and no start-scan request is posted.  And a start-scan
    request is never posted without an upload command that returned
    before it. *)
Theorem submitSourceFromLocalDir_starts_scan_when_execSync_returns :
  forall (rt : Runtime) (config : ScaConfig) (sourceLocation : string) (w : Run),
    let quote := String (ascii_of_nat 34) EmptyString in
    let outcome := submitSourceFromLocalDir rt config sourceLocation w in
    exists new : list Event,
      events (snd outcome) = (events w ++ new)%list
      /\ (forall (command : string) (output : JsValue),
             In (Called (ExecSync command) (Returned output)) new ->
             exists (file response target : JsValue) (started : Reply),
               In (Called (TmpNameSync "cxsrc-" ".zip") (Returned file)) new
               /\ getMember response "url" = Normal target
               /\ command = "curl -X PUT -L " ++ quote ++ toString target ++ quote
                              ++ " -H " ++ quote ++ "Content-Type:" ++ quote
                              ++ " -T " ++ quote ++ toString file ++ quote
               /\ networkCalls new
                  = [Called (PostRequest "/api/uploads" (JsObject [])) (Returned response);
                     Called (ExecSync command) (Returned output);
                     Called (PostRequest "/api/scans"
                               (JsObject
                                  [("project",
                                    JsObject
                                      [("id", projectId w);
                                       ("type", JsString (locationTypeValue rt LOCAL_DIRECTORY));
                                       ("handler", JsObject [("url", target)])])]))
                            started]
               /\ fst outcome = match started with
                                | Returned answered => Normal answered
                                | Rejected e => Abrupt e
                                end)
      /\ (forall (command : string) (e : JsError),
             In (Called (ExecSync command) (Rejected e)) new ->
             fst outcome = Abrupt e
             /\ forall (body : JsValue) (started : Reply),
                 ~ In (Called (PostRequest "/api/scans" body) started) new)
      /\ (forall (body : JsValue) (started : Reply),
             In (Called (PostRequest "/api/scans" body) started) new ->
             exists (command : string) (output : JsValue),
               In (Called (ExecSync command) (Returned output)) new).
Proof.
  intros rt config sourceLocation w quote outcome. subst outcome.
  unfold submitSourceFromLocalDir, getSourceUploadUrl, uploadToAWS, sendStartScanRequest.
  async_unfold.
  repeat run_step.
  all: change CREATE_SCAN with "/api/scans" in *; change ZIP_UPLOAD with "/api/uploads" in *.
  all: eexists; split; [norm_events; reflexivity |].
  all: split; [| split].
  all: try (intros command output Hin; in_cases Hin; fail).
  all: try (intros command err Hin; in_cases Hin; fail).
  all: try (intros body started Hin; in_cases Hin; fail).
  all: try (intros command err Hin; in_cases Hin; injection Hin as <- <-;
            split; [reflexivity |]; intros body started Hin; in_cases Hin; fail).
  all: try (intros body started Hin; do 2 eexists;
            cbn [In]; repeat (first [left; reflexivity | right]); fail).
  all: intros command output Hin; in_cases Hin; injection Hin as <- <-.
  all: do 4 eexists.
  all: split; [cbn [In]; repeat (first [left; reflexivity | right]) |].
  all: split; [eassumption |].
  all: split; [reflexivity |].
  all: split; reflexivity.
Qed.

Lemma submitSourceFromLocalDir_starts_scan_when_execSync_returns_witness :
  let rt := scriptedRuntime [Returned (JsString "/tmp/cxsrc-1.zip");
                             Returned (JsObject [("fileCount", JsNumber 3)]);
                             Returned (JsObject [("url", JsString "https://storage.example/up")]);
                             Returned (JsString "<Error><Code>AccessDenied</Code></Error>");
                             Returned (JsObject [("id", JsString "scan-1")])] in
  let outcome := submitSourceFromLocalDir rt (testConfig LOCAL_DIRECTORY) "/src" newScaClient in
  exists (response target : JsValue) (started : Reply),
    networkCalls (events (snd outcome))
    = [Called (PostRequest "/api/uploads" (JsObject [])) (Returned response);
       Called (ExecSync ("curl -X PUT -L " ++ String (ascii_of_nat 34) "https://storage.example/up"
                           ++ String (ascii_of_nat 34) " -H "
                           ++ String (ascii_of_nat 34) "Content-Type:"
                           ++ String (ascii_of_nat 34) " -T "
                           ++ String (ascii_of_nat 34) "/tmp/cxsrc-1.zip"
                           ++ String (ascii_of_nat 34) ""))
              (Returned (JsString "<Error><Code>AccessDenied</Code></Error>"));
       Called (PostRequest "/api/scans"
                 (JsObject [("project",
                             JsObject [("id", JsString "");
                                       ("type", JsString "upload");
                                       ("handler", JsObject [("url", target)])])]))
              started].
Proof.
  intros rt outcome.
  destruct (submitSourceFromLocalDir_starts_scan_when_execSync_returns
              rt (testConfig LOCAL_DIRECTORY) "/src" newScaClient)
    as (new & Hnew & Hreturned & _).
  cbn [newScaClient events app] in Hnew. fold outcome in Hnew, Hreturned.
  destruct (Hreturned
              ("curl -X PUT -L " ++ String (ascii_of_nat 34) "https://storage.example/up"
                 ++ String (ascii_of_nat 34) " -H "
                 ++ String (ascii_of_nat 34) "Content-Type:"
                 ++ String (ascii_of_nat 34) " -T "
                 ++ String (ascii_of_nat 34) "/tmp/cxsrc-1.zip"
                 ++ String (ascii_of_nat 34) "")
              (JsString "<Error><Code>AccessDenied</Code></Error>"))
    as (file & response & target & started & _ & _ & _ & Hcalls & _).
  - rewrite <- Hnew. vm_compute. repeat (first [left; reflexivity | right]).
  - exists response, target, started. rewrite Hnew. exact Hcalls.
Defined.

(** C6.  Every start-scan response either carries an identifier (the
    response and its [id] are both truthy) or lacks one.  When the
    start-scan request of a [createScan] is answered with a response that
    carries an identifier, [createScan] completes, that identifier is the
    client's scan id and the stopwatch has been started.  When the
    response lacks one, [createScan] throws the error saying that the scan
    id could not be obtained, the scan id is left as it was, and the
    stopwatch is not started.  In every run at most one start-scan request
    is posted, so the request is not tried again. *)
Theorem createScan_extracts_scan_id :
  (forall response : JsValue,
      (exists id, hasIdentifier response id) \/ lacksIdentifier response)
  /\ (forall (rt : Runtime) (config : ScaConfig) (sourceLocation : string) (w : Run),
         let outcome := createScan rt config sourceLocation w in
         exists new : list Event,
           events (snd outcome) = (events w ++ new)%list
           /\ (List.length (filter isStartScanCall new) <= 1)%nat
           /\ (forall request response : JsValue,
                  In (Called (PostRequest "/api/scans" request) (Returned response)) new ->
                  (forall id : JsValue,
                      hasIdentifier response id ->
                      outcome = (Normal tt,
                                 {| projectId := projectId w; scanId := id;
                                    events := events w ++ new |})
                      /\ In StopwatchStarted new)
                  /\ (lacksIdentifier response ->
                      fst outcome
                      = Abrupt (mkError Error
                                  "Error creating CxSCA scan. Unable to get scan ID.")
                      /\ scanId (snd outcome) = scanId w
                      /\ ~ In StopwatchStarted new))).
Proof.
  split.
  - intros response.
    destruct (extractScanIdFrom_cases response) as [(id & _ & Hhas) | (_ & Hlacks)]; eauto.
  - intros rt config sourceLocation w outcome.
    destruct (createScan_after_start_scan rt config sourceLocation w)
      as (new & Hnew & Honce & Hanswered).
    exists new. split; [exact Hnew |]. split; [exact Honce |].
    intros request response Hin. specialize (Hanswered request response Hin).
    split.
    + intros id Hhas. now rewrite (extractScanIdFrom_present response id Hhas) in Hanswered.
    + intros Hlacks. now rewrite (extractScanIdFrom_absent response Hlacks) in Hanswered.
Qed.

Lemma createScan_extracts_scan_id_witness :
  let rt := scriptedRuntime [Returned (JsObject [("status", JsString "Queued")])] in
  let config := mkScaConfig None REMOTE_REPOSITORY
                  (Some (mkRemoteRepositoryInfo "https://git.example/app.git"))
                  "" "" false 0 0 0 in
  let outcome := createScan rt config "" newScaClient in
  fst outcome = Abrupt (mkError Error "Error creating CxSCA scan. Unable to get scan ID.")
  /\ scanId (snd outcome) = JsString ""
  /\ ~ In StopwatchStarted (events (snd outcome)).
Proof.
  intros rt config outcome.
  destruct (proj2 createScan_extracts_scan_id rt config "" newScaClient)
    as (new & Hnew & _ & Hanswered).
  cbn [newScaClient events app] in Hnew. fold outcome in Hnew, Hanswered.
  rewrite Hnew.
  apply (Hanswered
           (startScanRequest rt (JsString "") REMOTE_REPOSITORY
              (JsString "https://git.example/app.git"))
           (JsObject [("status", JsString "Queued")])).
  - rewrite <- Hnew. vm_compute. repeat (first [left; reflexivity | right]).
  - right. exists JsUndefined. split; reflexivity.
Defined.

Lemma printSummaryResult_run (summary : JsValue) (w : Run) :
  printSummaryResult summary w
  = match getMember summary "createdOn" with
    | Normal _ =>
        (Normal tt,
         {| projectId := projectId w; scanId := scanId w;
            events := events w ++ summaryLines summary (scanId w) |})
    | Abrupt e =>
        (Abrupt e, record (Logged Info (LF ++ "----CxSCA risk report summary----")) w)
    end.
Proof.
  unfold printSummaryResult, summaryLines, memberOf. async_unfold.
  destruct summary; cbn [getMember]; norm_events; reflexivity.
Qed.

Lemma getMember_abrupt (v : JsValue) (key : string) (e : JsError) :
  getMember v key = Abrupt e -> errorClass e = TypeError.
Proof. destruct v; cbn; intros [=]; now subst e. Qed.

Ltac retrieval_step :=
  first
    [ rewrite printSummaryResult_run
    | run_step
    | match goal with
      | |- context [match webAppUrl ?c with _ => _ end] => destruct (webAppUrl c) eqn:?
      | |- context [if (?a =? ?b)%string then _ else _] => destruct (a =? b)%string eqn:?
      end; cbn [events projectId scanId fst snd] ].

(** C4.  Retrieving the scan results succeeds only as follows: the network
    calls of the retrieval are the request for the report id of the scan
    and then three GETs -- [/risk-management/riskReports/<report id>]
    followed by [/summary], [/vulnerabilities] and [/packages] -- whose
    paths are built from that report id alone, all four answered, and the result
    holds exactly the three answers and is marked ready.  Every failure of
    the retrieval is one plain [Error] whose message is the retrieval
    prefix followed by the message of its cause, the cause being a
    rejected request of this retrieval or the TypeError of reading a
    summary that is [null] or [undefined].  Whenever one of the requests is
    rejected the retrieval fails in that way, so no result with part of
    the data is returned. *)
Theorem retrieveScanResults_all_or_nothing :
  forall (rt : Runtime) (config : ScaConfig) (w : Run),
    let outcome := retrieveScanResults rt config w in
    exists new : list Event,
      events (snd outcome) = (events w ++ new)%list
      /\ (forall results : SCAResults,
             fst outcome = Normal results ->
             exists reportId : JsValue,
               networkCalls new
               = [Called (GetRequest ("/risk-management/scans/" ++ toString (scanId w)
                                        ++ "/riskReportId"))
                         (Returned reportId);
                  Called (GetRequest ("/risk-management/riskReports/" ++ toString reportId
                                        ++ "/summary"))
                         (Returned (summary results));
                  Called (GetRequest ("/risk-management/riskReports/" ++ toString reportId
                                        ++ "/vulnerabilities"))
                         (Returned (findings results));
                  Called (GetRequest ("/risk-management/riskReports/" ++ toString reportId
                                        ++ "/packages"))
                         (Returned (packages results))]
               /\ results_scanId results = scanId w
               /\ scaResultReady results = true)
      /\ (forall failure : JsError,
             fst outcome = Abrupt failure ->
             exists cause : JsError,
               failure = mkError Error ("Error retrieving CxSCA scan results. " ++ message cause)
               /\ ((exists request, In (Called request (Rejected cause)) new)
                   \/ errorClass cause = TypeError))
      /\ (forall (request : Call) (cause : JsError),
             In (Called request (Rejected cause)) new ->
             fst outcome
             = Abrupt (mkError Error ("Error retrieving CxSCA scan results. " ++ message cause))).
Proof.
  intros rt config w outcome. subst outcome.
  unfold retrieveScanResults, getReportId, getSummaryReport, getFindings, getPackages,
    getWebReportLink.
  async_unfold.
  repeat retrieval_step.
  all: eexists; split; [norm_events; reflexivity |].
  all: repeat split.
  all: try (intros results [= <-]; eexists; repeat split; reflexivity).
  all: try (intros failure [=]; fail).
  all: try (intros failure [= <-]; eexists; split; [reflexivity |];
            first [ right; eapply getMember_abrupt; eassumption
                  | left; eexists; unfold summaryLines; cbn [app In];
                    repeat (first [left; reflexivity | right]) ]).
  all: intros request cause Hin; unfold summaryLines in Hin; cbn [app] in Hin;
    in_cases Hin; injection Hin as <- <-; reflexivity.
Qed.

Lemma retrieveScanResults_all_or_nothing_witness :
  let rt := scriptedRuntime [Returned (JsString "r-1");
                             Returned (JsObject [("riskScore", JsNumber 7)]);
                             Returned (JsArray []);
                             Rejected (mkError Error "Service Unavailable")] in
  fst (retrieveScanResults rt (testConfig REMOTE_REPOSITORY) newScaClient)
  = Abrupt (mkError Error "Error retrieving CxSCA scan results. Service Unavailable").
Proof.
  intros rt.
  destruct (retrieveScanResults_all_or_nothing rt (testConfig REMOTE_REPOSITORY) newScaClient)
    as (new & Hnew & _ & _ & Hrejected).
  cbn [newScaClient events app] in Hnew.
  apply (Hrejected (GetRequest "/risk-management/riskReports/r-1/packages")
                   (mkError Error "Service Unavailable")).
  rewrite <- Hnew. vm_compute. repeat (first [left; reflexivity | right]).
Defined.

(* ================================================================== *)
(** ** Further properties: login settings                              *)
(* ================================================================== *)

Lemma prefix_append (p rest : string) : String.prefix p (p ++ rest) = true.
Proof.
  induction p as [| c p IH]; cbn.
  - now destruct rest.
  - destruct (ascii_dec c c) as [_ | Hne]; [exact IH | now elim Hne].
Qed.

(** X1.  [resolveScaLoginSettings] asks nothing of the transport.  An
    access-control URL that begins with [https://platform.checkmarx.net]
    -- whatever follows it -- selects the client type [SCA] and is passed
    on as it is, with the API URL, user name, password and tenant of the
    configuration, and [url.resolve] is not consulted.  Any other URL, the
    empty and the missing one included, is handed to [url.resolve] with
    [CxRestAPI/auth/]: when that returns, its result is passed on with the
    client type [RESOURCE_OWNER]; when it throws, the method throws the
    same error, having logged nothing. *)
Theorem resolveScaLoginSettings_cloud_by_prefix :
  forall (urlResolve : option string -> string -> Completion string)
         (scaConfig : ScaLoginConfig) (w : Run),
    let outcome := resolveScaLoginSettings urlResolve scaConfig w in
    let settings (base : string) (clientType : ClientType) :=
      {| ScaLoginSettings.apiUrl := apiUrl scaConfig;
         ScaLoginSettings.accessControlBaseUrl := base;
         ScaLoginSettings.username := username scaConfig;
         ScaLoginSettings.password := password scaConfig;
         ScaLoginSettings.tenant := tenant scaConfig;
         ScaLoginSettings.clientTypeForPasswordAuth := clientType |} in
    let onPremise :=
      match accessControlUrl scaConfig with
      | Some given => String.prefix "https://platform.checkmarx.net" given = false
      | None => True
      end in
    calls (events (snd outcome)) = calls (events w)
    /\ (forall rest : string,
           accessControlUrl scaConfig = Some ("https://platform.checkmarx.net" ++ rest) ->
           outcome = (Normal (settings ("https://platform.checkmarx.net" ++ rest) SCA),
                      record (Logged Info "Using cloud authentication.") w))
    /\ (forall resolved : string,
           onPremise ->
           urlResolve (accessControlUrl scaConfig) "CxRestAPI/auth/" = Normal resolved ->
           outcome = (Normal (settings resolved RESOURCE_OWNER),
                      record (Logged Info "Using on-premise authentication.") w))
    /\ (forall e : JsError,
           onPremise ->
           urlResolve (accessControlUrl scaConfig) "CxRestAPI/auth/" = Abrupt e ->
           outcome = (Abrupt e, w)).
Proof.
  intros urlResolve scaConfig w outcome settings onPremise.
  subst outcome settings onPremise.
  unfold resolveScaLoginSettings, CLOUD_ACCESS_CONTROL_BASE_URL. async_unfold.
  destruct (accessControlUrl scaConfig) as [given |] eqn:Hgiven.
  - destruct (String.prefix "https://platform.checkmarx.net" given) eqn:Hprefix.
    + assert (Hnonempty : (given =? "")%string = false) by now destruct given.
      rewrite Hnonempty. cbn [negb andb fst snd events].
      repeat split.
      * unfold calls. rewrite filter_app. cbn. now rewrite app_nil_r.
      * now intros rest [= ->].
      * intros ? [=].
      * intros ? [=].
    + rewrite andb_false_r.
      destruct (urlResolve (Some given) "CxRestAPI/auth/") as [resolved | e] eqn:Hresolved;
        cbn [fst snd events].
      * repeat split.
        -- unfold calls. rewrite filter_app. cbn. now rewrite app_nil_r.
        -- intros rest Hcloud.
           assert (Hg : given = "https://platform.checkmarx.net" ++ rest) by congruence.
           rewrite Hg, prefix_append in Hprefix. discriminate Hprefix.
        -- now intros ? _ [= <-].
        -- intros ? _ [=].
      * repeat split.
        -- intros rest Hcloud.
           assert (Hg : given = "https://platform.checkmarx.net" ++ rest) by congruence.
           rewrite Hg, prefix_append in Hprefix. discriminate Hprefix.
        -- intros ? _ [=].
        -- now intros ? _ [= <-].
  - destruct (urlResolve None "CxRestAPI/auth/") as [resolved | e] eqn:Hresolved;
      cbn [fst snd events].
    + repeat split.
      * unfold calls. rewrite filter_app. cbn. now rewrite app_nil_r.
      * intros ? [=].
      * now intros ? _ [= <-].
      * intros ? _ [=].
    + repeat split.
      * intros ? [=].
      * intros ? _ [=].
      * now intros ? _ [= <-].
Qed.

Lemma resolveScaLoginSettings_cloud_by_prefix_witness :
  let urlResolve (base : option string) (relative : string) : Completion string :=
    match base with
    | Some given => Normal (given ++ "/" ++ relative)
    | None =>
        Abrupt (mkError TypeError
                  ("The " ++ DQUOTE ++ "url" ++ DQUOTE
                     ++ " argument must be of type string. Received undefined"))
    end in
  let cloud := mkScaLoginConfig (Some "https://platform.checkmarx.net.example.org/ac")
                                "https://api.example" "user" "secret" "tenant-1" in
  let unset := mkScaLoginConfig None "https://api.example" "user" "secret" "tenant-1" in
  (exists settings : ScaLoginSettings.t,
      fst (resolveScaLoginSettings urlResolve cloud newScaClient) = Normal settings
      /\ ScaLoginSettings.clientTypeForPasswordAuth settings = SCA
      /\ ScaLoginSettings.accessControlBaseUrl settings
         = "https://platform.checkmarx.net.example.org/ac")
  /\ exists e : JsError,
      resolveScaLoginSettings urlResolve unset newScaClient = (Abrupt e, newScaClient)
      /\ errorClass e = TypeError.
Proof.
  intros urlResolve cloud unset. split.
  - destruct (resolveScaLoginSettings_cloud_by_prefix urlResolve cloud newScaClient)
      as (_ & Hcloud & _).
    rewrite (Hcloud ".example.org/ac" eq_refl).
    eexists. repeat split.
  - destruct (resolveScaLoginSettings_cloud_by_prefix urlResolve unset newScaClient)
      as (_ & _ & _ & Hthrows).
    eexists. split; [apply Hthrows; [exact I | reflexivity] | reflexivity].
Defined.
(* ================================================================== *)
(** ** Further properties: the local-directory submission              *)
(* ================================================================== *)

(** X2.  [getSourceUploadUrl] posts one request, an empty object to
    [/api/uploads], and nothing else.  It returns the [url] of the answer
    when the answer and its [url] are truthy; an answer from which no URL
    can be taken (a falsy answer, a missing or empty [url]) is the error
    that the upload URL could not be got; a rejected request is thrown as
    it was rejected. *)
Theorem getSourceUploadUrl_one_request :
  forall (rt : Runtime) (w : Run),
    let request := PostRequest "/api/uploads" (JsObject []) in
    let answered := answer rt (events w) request in
    let outcome := getSourceUploadUrl rt w in
    snd outcome = record (Called request answered) w
    /\ (forall response target : JsValue,
           answered = Returned response ->
           truthy response = true ->
           getMember response "url" = Normal target ->
           truthy target = true ->
           fst outcome = Normal target)
    /\ (forall response : JsValue,
           answered = Returned response ->
           lacksUrl response ->
           fst outcome = Abrupt (mkError Error "Unable to get the upload URL."))
    /\ (forall e : JsError, answered = Rejected e -> fst outcome = Abrupt e).
Proof.
  intros rt w request answered outcome. subst outcome.
  unfold getSourceUploadUrl. async_unfold.
  change ZIP_UPLOAD with "/api/uploads". fold request. fold answered.
  destruct answered as [response | e].
  - destruct (truthy response) eqn:Hresponse; cbn [negb].
    + destruct (getMember response "url") as [target | e] eqn:Htarget.
      * destruct (truthy target) eqn:Htruthy; cbn [negb fst snd];
          (split; [reflexivity |]); repeat split.
        -- intros r t [= <-] _ Ht _. congruence.
        -- intros r [= <-] [Hr | (t & Ht & Hfalsy)]; congruence.
        -- intros e [=].
        -- intros r t [= <-] _ Ht Htrue. congruence.
        -- intros e [=].
      * destruct response; discriminate.
    + cbn [fst snd]. split; [reflexivity |]. repeat split.
      * intros r t [= <-]. congruence.
      * intros e [=].
  - cbn [fst snd]. split; [reflexivity |]. repeat split.
    + intros r t [=].
    + intros r [=].
    + now intros e' [= <-].
Qed.

Lemma getSourceUploadUrl_one_request_witness :
  fst (getSourceUploadUrl (scriptedRuntime [Returned (JsObject [("link", JsString "https://s3/up")])])
                          newScaClient)
  = Abrupt (mkError Error "Unable to get the upload URL.").
Proof.
  apply (proj1 (proj2 (proj2 (getSourceUploadUrl_one_request
                                (scriptedRuntime [Returned (JsObject [("link", JsString "https://s3/up")])])
                                newScaClient)))
           (JsObject [("link", JsString "https://s3/up")]) eq_refl).
  right. exists JsUndefined. split; reflexivity.
Defined.

(** X3.  In a local-directory submission, when the request for an upload
    URL is answered with something no URL can be taken from, the
    submission fails with the upload-URL error: nothing is uploaded and no
    scan is started. *)
Theorem submitSourceFromLocalDir_needs_upload_url :
  forall (rt : Runtime) (config : ScaConfig) (sourceLocation : string) (w : Run),
    let outcome := submitSourceFromLocalDir rt config sourceLocation w in
    exists new : list Event,
      events (snd outcome) = (events w ++ new)%list
      /\ (forall body response : JsValue,
             In (Called (PostRequest "/api/uploads" body) (Returned response)) new ->
             lacksUrl response ->
             fst outcome = Abrupt (mkError Error "Unable to get the upload URL.")
             /\ existsb isUploadCall new = false
             /\ existsb isStartScanCall new = false).
Proof.
  intros rt config sourceLocation w outcome. subst outcome.
  unfold submitSourceFromLocalDir, getSourceUploadUrl, uploadToAWS, sendStartScanRequest.
  async_unfold.
  repeat run_step.
  all: change CREATE_SCAN with "/api/scans" in *; change ZIP_UPLOAD with "/api/uploads" in *.
  all: eexists; split; [norm_events; reflexivity |].
  all: intros body response Hin Hlacks; in_cases Hin.
  all: injection Hin as <- <-.
  all: try (repeat split; reflexivity).
  all: destruct Hlacks as [Hfalsy | (target & Htarget & Hfalsy)]; congruence.
Qed.

Lemma submitSourceFromLocalDir_needs_upload_url_witness :
  let rt := scriptedRuntime [Returned (JsString "/tmp/cxsrc-1.zip");
                             Returned (JsObject [("fileCount", JsNumber 3)]);
                             Returned (JsObject [("url", JsString "")])] in
  let outcome := submitSourceFromLocalDir rt (testConfig LOCAL_DIRECTORY) "/src" newScaClient in
  fst outcome = Abrupt (mkError Error "Unable to get the upload URL.")
  /\ existsb isUploadCall (events (snd outcome)) = false
  /\ existsb isStartScanCall (events (snd outcome)) = false.
Proof.
  intros rt outcome.
  destruct (submitSourceFromLocalDir_needs_upload_url
              rt (testConfig LOCAL_DIRECTORY) "/src" newScaClient)
    as (new & Hnew & Hlacks).
  cbn [newScaClient events app] in Hnew. fold outcome in Hnew, Hlacks.
  rewrite Hnew.
  apply (Hlacks (JsObject []) (JsObject [("url", JsString "")])).
  - rewrite <- Hnew. vm_compute. repeat (first [left; reflexivity | right]).
  - right. exists (JsString ""). split; reflexivity.
Defined.

Lemma strictEqualsZero_false (v : JsValue) : v <> JsNumber 0 -> strictEqualsZero v = false.
Proof.
  intros Hne. destruct v as [| | b | n | s | items | members]; try reflexivity.
  destruct n; try reflexivity. now elim Hne.
Qed.

(** X4.  Only a [fileCount] that is exactly the number zero skips the
    submission.  With any other value -- a positive count, but also a zip
    result that has no [fileCount] at all -- the submission goes on: it
    logs that it uploads and its first network call is the request for an
    upload URL. *)
Theorem submitSourceFromLocalDir_proceeds_unless_zero :
  forall (rt : Runtime) (config : ScaConfig) (sourceLocation : string) (w : Run)
         (tempFilename zipResult fileCount : JsValue),
    let start := Logged Info "Using local directory flow." in
    let naming := TmpNameSync "cxsrc-" ".zip" in
    let zipping := ZipDirectory (dependencyFileExtension config)
                                (dependencyFolderExclusion config)
                                sourceLocation tempFilename in
    let named := [start;
                  Called naming (Returned tempFilename);
                  Logged Info ("Zipping source code at " ++ sourceLocation
                                 ++ " into file " ++ toString tempFilename)] in
    let zipped := (events w ++ named
                     ++ [Called zipping (Returned zipResult);
                         Logged Info "Uploading the zipped source file..."])%list in
    let request := PostRequest "/api/uploads" (JsObject []) in
    answer rt (events w ++ [start]) naming = Returned tempFilename ->
    answer rt (events w ++ named) zipping = Returned zipResult ->
    getMember zipResult "fileCount" = Normal fileCount ->
    fileCount <> JsNumber 0 ->
    exists rest : list Event,
      events (snd (submitSourceFromLocalDir rt config sourceLocation w))
      = (zipped ++ Called request (answer rt zipped request) :: rest)%list.
Proof.
  intros rt config sourceLocation w tempFilename zipResult fileCount
         start naming zipping named zipped request Hnamed Hzipped Hcount Hnonzero.
  unfold submitSourceFromLocalDir, getSourceUploadUrl, uploadToAWS, sendStartScanRequest.
  async_unfold.
  fold start. fold naming. rewrite Hnamed. norm_events.
  fold named. fold zipping. rewrite Hzipped, Hcount.
  rewrite (strictEqualsZero_false fileCount Hnonzero).
  norm_events. change ZIP_UPLOAD with "/api/uploads". fold request.
  assert (Hzipped' : (events w ++ named
                        ++ [Called zipping (Returned zipResult);
                            Logged Info "Uploading the zipped source file..."])%list = zipped)
    by reflexivity.
  cbn [app] in Hzipped'. unfold named in Hzipped'. cbn [app] in Hzipped'.
  unfold named. cbn [app]. rewrite !Hzipped'.
  repeat run_step.
  all: rewrite ?Hzipped'; events_tail.
Qed.

Lemma submitSourceFromLocalDir_proceeds_unless_zero_witness :
  let rt := scriptedRuntime [Returned (JsString "/tmp/cxsrc-1.zip");
                             Returned (JsObject [])] in
  exists rest : list Event,
    events (snd (submitSourceFromLocalDir rt (testConfig LOCAL_DIRECTORY) "/src" newScaClient))
    = ([Logged Info "Using local directory flow.";
        Called (TmpNameSync "cxsrc-" ".zip") (Returned (JsString "/tmp/cxsrc-1.zip"));
        Logged Info "Zipping source code at /src into file /tmp/cxsrc-1.zip";
        Called (ZipDirectory "" "" "/src" (JsString "/tmp/cxsrc-1.zip")) (Returned (JsObject []));
        Logged Info "Uploading the zipped source file...";
        Called (PostRequest "/api/uploads" (JsObject []))
               (Rejected (mkError Error "connect ECONNREFUSED"))] ++ rest)%list.
Proof.
  intros rt.
  destruct (submitSourceFromLocalDir_proceeds_unless_zero
              rt (testConfig LOCAL_DIRECTORY) "/src" newScaClient
              (JsString "/tmp/cxsrc-1.zip") (JsObject []) JsUndefined
              eq_refl eq_refl eq_refl ltac:(discriminate)) as (rest & Hrest).
  exists rest. exact Hrest.
Defined.

(* ================================================================== *)
(** ** Further properties: [createScan]                                *)
(* ================================================================== *)

(** The two flows of [createScan], unfolded, with the answer to a
    start-scan request classified by [extractScanIdFrom_cases]. *)
Ltac run_createScan :=
  unfold createScan;
  match goal with
  | |- context [sourceLocationType ?c] => destruct (sourceLocationType c) eqn:?
  end;
  [ unfold submitSourceFromLocalDir, getSourceUploadUrl, uploadToAWS, sendStartScanRequest
  | unfold submitSourceFromRemoteRepo, sendStartScanRequest;
    match goal with
    | |- context [remoteRepositoryInfo ?c] => destruct (remoteRepositoryInfo c) eqn:?
    end ];
  async_unfold;
  repeat run_step;
  change CREATE_SCAN with "/api/scans" in *;
  change ZIP_UPLOAD with "/api/uploads" in *;
  try (match goal with
       | |- context [extractScanIdFrom ?v] =>
           destruct (extractScanIdFrom_cases v) as [(? & Hex & Hhas) | (Hex & Hlacks)];
           rewrite Hex
       end; cbn [events projectId scanId fst snd message]).

(** X5.  [createScan] throws nothing but plain [Error]s whose message
    begins with its own prefix: whatever a collaborator rejects with (the
    temporary name, the zipper, the transport, the upload command), of
    whatever class, comes out as an [Error] with the prefix followed by
    the message of the rejection.  After a failure the scan id is what it
    was and the stopwatch has not been started.  When [createScan]
    completes, the stopwatch has been started and the scan id is the
    identifier carried by the answer to a start-scan request of this run.
    In both cases the project id is left as it was. *)
Theorem createScan_wraps_every_failure :
  forall (rt : Runtime) (config : ScaConfig) (sourceLocation : string) (w : Run),
    let outcome := createScan rt config sourceLocation w in
    exists new : list Event,
      events (snd outcome) = (events w ++ new)%list
      /\ projectId (snd outcome) = projectId w
      /\ (forall failure : JsError,
             fst outcome = Abrupt failure ->
             (exists detail : string,
                 failure = mkError Error ("Error creating CxSCA scan. " ++ detail))
             /\ scanId (snd outcome) = scanId w
             /\ ~ In StopwatchStarted new)
      /\ (forall (c : Call) (e : JsError),
             In (Called c (Rejected e)) new ->
             fst outcome = Abrupt (mkError Error ("Error creating CxSCA scan. " ++ message e)))
      /\ (fst outcome = Normal tt ->
          In StopwatchStarted new
          /\ exists request response : JsValue,
              In (Called (PostRequest "/api/scans" request) (Returned response)) new
              /\ hasIdentifier response (scanId (snd outcome))).
Proof.
  intros rt config sourceLocation w outcome. subst outcome.
  run_createScan.
  all: eexists; split; [norm_events; reflexivity |].
  all: split; [reflexivity |].
  all: split; [| split].
  all: try (intros failure [=]; fail).
  all: try (intros [=]; fail).
  all: try (intros failure [= <-]; split; [eexists; reflexivity |];
            split; [reflexivity | cbn [In]; intuition discriminate]).
  all: try (intros c err Hin; in_cases Hin; injection Hin as <- <-; reflexivity).
  all: try (intros _; split; [cbn [In]; repeat (first [left; reflexivity | right]) |];
            do 2 eexists; split;
            [cbn [In]; repeat (first [left; reflexivity | right]) | eassumption]).
Qed.

Lemma createScan_wraps_every_failure_witness :
  let rt := scriptedRuntime [Returned (JsString "/tmp/cxsrc-1.zip");
                             Rejected (mkError TypeError "ENOENT: no such directory")] in
  fst (createScan rt (testConfig LOCAL_DIRECTORY) "/missing" newScaClient)
  = Abrupt (mkError Error "Error creating CxSCA scan. ENOENT: no such directory").
Proof.
  intros rt.
  destruct (createScan_wraps_every_failure rt (testConfig LOCAL_DIRECTORY) "/missing" newScaClient)
    as (new & Hnew & _ & _ & Hrejected & _).
  cbn [newScaClient events app] in Hnew.
  apply (Hrejected (ZipDirectory "" "" "/missing" (JsString "/tmp/cxsrc-1.zip"))
                   (mkError TypeError "ENOENT: no such directory")).
  rewrite <- Hnew. vm_compute. repeat (first [left; reflexivity | right]).
Defined.

(** X6.  Every start-scan request that [createScan] posts carries the
    project id the client holds, the value of the configured source
    location type and a source URL, each of which reads back from the
    posted body ([project.id], [project.type], [project.handler.url]).  On
    the remote flow the URL is the configured repository URL; on the local
    flow it is the [url] of the answer to this run's upload-URL request. *)
Theorem createScan_start_request_content :
  forall (rt : Runtime) (config : ScaConfig) (sourceLocation : string) (w : Run),
    exists new : list Event,
      events (snd (createScan rt config sourceLocation w)) = (events w ++ new)%list
      /\ (forall (request : JsValue) (reply : Reply),
             In (Called (PostRequest "/api/scans" request) reply) new ->
             exists sourceUrl : JsValue,
               request = startScanRequest rt (projectId w) (sourceLocationType config) sourceUrl
               /\ memberOf (memberOf request "project") "id" = projectId w
               /\ memberOf (memberOf request "project") "type"
                  = JsString (locationTypeValue rt (sourceLocationType config))
               /\ memberOf (memberOf (memberOf request "project") "handler") "url" = sourceUrl
               /\ match sourceLocationType config with
                  | REMOTE_REPOSITORY =>
                      exists info, remoteRepositoryInfo config = Some info
                                   /\ sourceUrl = JsString (url info)
                  | LOCAL_DIRECTORY =>
                      exists response,
                        In (Called (PostRequest "/api/uploads" (JsObject [])) (Returned response)) new
                        /\ getMember response "url" = Normal sourceUrl
                  end).
Proof.
  intros rt config sourceLocation w.
  run_createScan.
  all: eexists; split; [norm_events; reflexivity |].
  all: intros request reply Hin; in_cases Hin.
  all: injection Hin as <- <-.
  all: eexists; split; [reflexivity |].
  all: repeat split.
  all: try (eexists; split; [reflexivity | reflexivity]).
  all: eexists; split; [cbn [In]; repeat (first [left; reflexivity | right]) | eassumption].
Qed.

Lemma createScan_start_request_content_witness :
  let rt := scriptedRuntime [Returned (JsObject [("id", JsString "scan-1")])] in
  let config := mkScaConfig None REMOTE_REPOSITORY
                  (Some (mkRemoteRepositoryInfo "https://git.example/app.git"))
                  "" "" false 0 0 0 in
  let w := mkRun (JsString "p-3") (JsString "") [] in
  let request := startScanRequest rt (JsString "p-3") REMOTE_REPOSITORY
                   (JsString "https://git.example/app.git") in
  memberOf (memberOf (memberOf request "project") "handler") "url"
  = JsString "https://git.example/app.git"
  /\ memberOf (memberOf request "project") "id" = JsString "p-3".
Proof.
  intros rt config w request.
  destruct (createScan_start_request_content rt config "" w) as (new & Hnew & Hcontent).
  cbn [w events app] in Hnew.
  destruct (Hcontent request (Returned (JsObject [("id", JsString "scan-1")])))
    as (sourceUrl & _ & Hid & _ & Hurl & (info & [= <-] & Hsource)).
  - rewrite <- Hnew. vm_compute. repeat (first [left; reflexivity | right]).
  - split; [now rewrite Hurl, Hsource | exact Hid].
Defined.

(** X7.  On the remote-repository flow [createScan] never names a
    temporary file, zips or uploads: all it asks of its collaborators is
    at most the one start-scan request, for the configured repository URL.
    When the configuration has no repository information at all, it asks
    nothing and throws the error that the URL must be provided. *)
Theorem createScan_remote_flow_calls :
  forall (rt : Runtime) (config : ScaConfig) (sourceLocation : string) (w : Run),
    sourceLocationType config = REMOTE_REPOSITORY ->
    let outcome := createScan rt config sourceLocation w in
    exists new : list Event,
      events (snd outcome) = (events w ++ new)%list
      /\ match remoteRepositoryInfo config with
         | Some info =>
             exists reply : Reply,
               calls new
               = [Called (PostRequest "/api/scans"
                            (startScanRequest rt (projectId w) REMOTE_REPOSITORY
                               (JsString (url info))))
                         reply]
         | None =>
             calls new = []
             /\ fst outcome
                = Abrupt (mkError Error
                            ("Error creating CxSCA scan. "
                               ++ "URL must be provided in CxSCA configuration when using source location of type "
                               ++ locationTypeValue rt REMOTE_REPOSITORY ++ "."))
         end.
Proof.
  intros rt config sourceLocation w Hremote outcome. subst outcome.
  unfold createScan. rewrite Hremote.
  unfold submitSourceFromRemoteRepo, sendStartScanRequest.
  destruct (remoteRepositoryInfo config) as [info |].
  all: async_unfold.
  all: repeat run_step.
  all: change CREATE_SCAN with "/api/scans" in *.
  all: try (match goal with
            | |- context [extractScanIdFrom ?v] => destruct (extractScanIdFrom v)
            end; cbn [events projectId scanId fst snd message]).
  all: eexists; split; [norm_events; reflexivity |].
  all: first [split; reflexivity | eexists; reflexivity].
Qed.

Lemma createScan_remote_flow_calls_witness :
  let config := mkScaConfig None REMOTE_REPOSITORY None "" "" false 0 0 0 in
  fst (createScan (scriptedRuntime []) config "" newScaClient)
  = Abrupt (mkError Error
              "Error creating CxSCA scan. URL must be provided in CxSCA configuration when using source location of type git.").
Proof.
  intros config.
  destruct (createScan_remote_flow_calls (scriptedRuntime []) config "" newScaClient eq_refl)
    as (new & _ & _ & Hthrown).
  exact Hthrown.
Defined.

(* ================================================================== *)
(** ** Further properties: project resolution                          *)
(* ================================================================== *)

(** The search asks nothing of anyone and can only assign [projectId]. *)
Lemma searchProjects_state (rt : Runtime) (projectName : string) (projects : list JsValue)
  (w : Run) :
  exists pid : JsValue,
    snd (searchProjects rt projectName projects w) = withProjectId pid w.
Proof.
  revert w. induction projects as [| p rest IH]; intros w; cbn [searchProjects].
  - exists (projectId w). destruct w; reflexivity.
  - async_unfold.
    destruct (getMember p "name") as [name | e];
      [| exists (projectId w); destruct w; reflexivity].
    destruct (stringMatch rt name projectName) as [[|] | e];
      [| apply IH | exists (projectId w); destruct w; reflexivity].
    destruct (getMember p "id") as [id | e];
      [exists id; reflexivity | exists (projectId w); destruct w; reflexivity].
Qed.

(** Everything [resolveProject] can ask for, and what it does with a
    rejection. *)
Lemma resolveProject_shape (rt : Runtime) (projectName : string) (w : Run) :
  let outcome := resolveProject rt projectName w in
  exists new : list Event,
    events (snd outcome) = (events w ++ new)%list
    /\ scanId (snd outcome) = scanId w
    /\ (calls new = []
        \/ (exists fetched : Reply,
               calls new = [Called (GetRequest "/risk-management/projects") fetched])
        \/ (exists (collection : JsValue) (created : Reply),
               calls new
               = [Called (GetRequest "/risk-management/projects") (Returned collection);
                  Called (PostRequest "/risk-management/projects"
                            (JsObject [("name", JsString projectName)]))
                         created]))
    /\ (forall (c : Call) (e : JsError),
           In (Called c (Rejected e)) new -> fst outcome = Abrupt e)
    /\ endsAtRejection new = true.
Proof.
  intros outcome. subst outcome.
  destruct (String.eqb_spec projectName "") as [-> | Hne].
  { eexists. split; [norm_events; reflexivity |].
    split; [reflexivity |]. split; [now left |].
    split; [| reflexivity].
    intros c e Hin. in_cases Hin. }
  rewrite resolveProject_run. cbv zeta.
  rewrite (getProjectIdByName_run rt projectName _ Hne).
  change PROJECTS with "/risk-management/projects".
  norm_events.
  destruct (answer rt _ (GetRequest "/risk-management/projects")) as [collection | e].
  - cbv zeta. destruct (iterate collection) as [projects | e].
    + match goal with
      | |- context [searchProjects rt projectName projects ?w1] =>
          destruct (searchProjects_state rt projectName projects w1) as (pid & Hstate);
          destruct (searchProjects rt projectName projects w1) as [[[] | e] w2]
      end; cbn [snd] in Hstate; subst w2; unfold withProjectId; norm_events.
      * destruct (truthy pid).
        -- eexists. split; [norm_events; reflexivity |].
           split; [reflexivity |]. split; [right; left; eexists; reflexivity |].
           split; [| reflexivity].
           intros c e Hin. in_cases Hin.
        -- destruct (answer rt _ (PostRequest _ _)) as [created | e];
             [destruct (getMember created "id") |];
             (eexists; split; [norm_events; reflexivity |]);
             (split; [reflexivity |]);
             (split; [right; right; do 2 eexists; reflexivity |]);
             (split; [| reflexivity]);
             intros c err Hin; in_cases Hin.
           now injection Hin as <- <-.
      * eexists. split; [norm_events; reflexivity |].
        split; [reflexivity |]. split; [right; left; eexists; reflexivity |].
        split; [| reflexivity].
        intros c err Hin. in_cases Hin.
    + eexists. split; [norm_events; reflexivity |].
      split; [reflexivity |]. split; [right; left; eexists; reflexivity |].
      split; [| reflexivity].
      intros c err Hin. in_cases Hin.
  - eexists. split; [norm_events; reflexivity |].
    split; [reflexivity |]. split; [right; left; eexists; reflexivity |].
    split; [| reflexivity].
    intros c err Hin. in_cases Hin. now injection Hin as <- <-.
Qed.

(** X8.  [resolveProject] asks its collaborators for at most two things,
    in this order: the GET of the project collection and, after it was
    answered, one POST creating a project of the requested name.  It
    starts no scan, uploads nothing and leaves the scan id as it was. *)
Theorem resolveProject_requests :
  forall (rt : Runtime) (projectName : string) (w : Run),
    let outcome := resolveProject rt projectName w in
    exists new : list Event,
      events (snd outcome) = (events w ++ new)%list
      /\ scanId (snd outcome) = scanId w
      /\ (calls new = []
          \/ (exists fetched : Reply,
                 calls new = [Called (GetRequest "/risk-management/projects") fetched])
          \/ (exists (collection : JsValue) (created : Reply),
                 calls new
                 = [Called (GetRequest "/risk-management/projects") (Returned collection);
                    Called (PostRequest "/risk-management/projects"
                              (JsObject [("name", JsString projectName)]))
                           created])).
Proof.
  intros rt projectName w outcome.
  destruct (resolveProject_shape rt projectName w) as (new & Hnew & Hscan & Hcalls & _).
  exists new. auto.
Qed.

(** X9.  [resolveProject] has no handler of its own: when the fetch of the
    collection or the creation request is rejected, it throws the very
    error of the rejection, class and message unchanged, and that rejected
    request is the last thing of the run -- nothing is asked or logged
    after it. *)
Theorem resolveProject_throws_rejection_unchanged :
  forall (rt : Runtime) (projectName : string) (w : Run),
    let outcome := resolveProject rt projectName w in
    exists new : list Event,
      events (snd outcome) = (events w ++ new)%list
      /\ (forall (c : Call) (e : JsError),
             In (Called c (Rejected e)) new -> fst outcome = Abrupt e)
      /\ endsAtRejection new = true.
Proof.
  intros rt projectName w outcome.
  destruct (resolveProject_shape rt projectName w) as (new & Hnew & _ & _ & Hrejected & Hends).
  exists new. auto.
Qed.

Lemma resolveProject_throws_rejection_unchanged_witness :
  let rt := scriptedRuntime [Returned (JsArray []);
                             Rejected (mkError TypeError "socket hang up")] in
  fst (resolveProject rt "billing" newScaClient) = Abrupt (mkError TypeError "socket hang up").
Proof.
  intros rt.
  destruct (resolveProject_throws_rejection_unchanged rt "billing" newScaClient)
    as (new & Hnew & Hrejected & _).
  cbn [newScaClient events app] in Hnew.
  apply (Hrejected (PostRequest "/risk-management/projects"
                      (JsObject [("name", JsString "billing")]))).
  rewrite <- Hnew. vm_compute. repeat (first [left; reflexivity | right]).
Defined.

(** X10.  The requested name is compiled as a regular expression only
    when there is a project to try it on.  With a name that does not
    compile and a collection whose first project has a string name,
    [resolveProject] throws a SyntaxError after the fetch, creates nothing
    and leaves the project id as it was; with the same name and an empty
    collection (on a client that holds no project id) it creates a project
    of that name. *)
Theorem resolveProject_invalid_pattern :
  forall (rt : Runtime) (projectName : string) (w : Run) (collection : JsValue),
    projectName <> "" ->
    regexpValid rt projectName = false ->
    let h1 := (events w ++ [Logged Info ("Resolving project by name: " ++ projectName)])%list in
    let fetch := GetRequest "/risk-management/projects" in
    answer rt h1 fetch = Returned collection ->
    (forall (p : JsValue) (rest : list JsValue) (n : string),
        iterate collection = Normal (p :: rest) ->
        getMember p "name" = Normal (JsString n) ->
        exists failure : JsError,
          errorClass failure = SyntaxError
          /\ resolveProject rt projectName w
             = (Abrupt failure,
                {| projectId := projectId w; scanId := scanId w;
                   events := h1 ++ [Called fetch (Returned collection)] |}))
    /\ (iterate collection = Normal [] ->
        truthy (projectId w) = false ->
        let h2 := (h1 ++ [Called fetch (Returned collection);
                          Logged Info "Project not found, creating a new one."])%list in
        let creation := PostRequest "/risk-management/projects"
                                    (JsObject [("name", JsString projectName)]) in
        exists rest : list Event,
          events (snd (resolveProject rt projectName w))
          = (h2 ++ Called creation (answer rt h2 creation) :: rest)%list).
Proof.
  intros rt projectName w collection Hne Hinvalid h1 fetch Hfetched.
  subst h1 fetch. split.
  - intros p rest n Hiter Hname.
    eexists. split; [| rewrite resolveProject_run; cbv zeta;
                       rewrite (getProjectIdByName_run rt projectName _ Hne);
                       change PROJECTS with "/risk-management/projects";
                       norm_events; rewrite Hfetched; cbv zeta; rewrite Hiter;
                       cbn [searchProjects]; async_unfold; rewrite Hname;
                       cbn [stringMatch]; rewrite Hinvalid; norm_events; reflexivity].
    reflexivity.
  - intros Hiter Hunset.
    rewrite resolveProject_run. cbv zeta.
    rewrite (getProjectIdByName_run rt projectName _ Hne).
    change PROJECTS with "/risk-management/projects".
    norm_events. rewrite Hfetched. cbv zeta. rewrite Hiter.
    cbn [searchProjects]. async_unfold. rewrite Hunset. cbn [negb]. norm_events.
    destruct (answer rt _ (PostRequest _ _)) as [created | e] eqn:Hcreated;
      [destruct (getMember created "id") |];
      eexists; norm_events; rewrite ?Hcreated; reflexivity.
Qed.

Lemma resolveProject_invalid_pattern_witness :
  let rt := {| answer := scripted [Returned (JsArray [JsObject [("id", JsString "p-1");
                                                                ("name", JsString "app")]])];
               regexpValid := fun pattern => negb (pattern =? "app(")%string;
               regexpSearch := occursIn;
               locationTypeValue := sourceLocationTypeValue |} in
  exists failure : JsError,
    errorClass failure = SyntaxError
    /\ fst (resolveProject rt "app(" newScaClient) = Abrupt failure.
Proof.
  intros rt.
  destruct (resolveProject_invalid_pattern rt "app(" newScaClient
              (JsArray [JsObject [("id", JsString "p-1"); ("name", JsString "app")]])
              ltac:(discriminate) eq_refl eq_refl) as [Hthrows _].
  destruct (Hthrows (JsObject [("id", JsString "p-1"); ("name", JsString "app")]) [] "app"
              eq_refl eq_refl) as (failure & Hclass & Hrun).
  exists failure. split; [exact Hclass | now rewrite Hrun].
Defined.

Lemma iterate_not_iterable (collection : JsValue) :
  (forall items, collection <> JsArray items) ->
  (forall s, collection <> JsString s) ->
  exists e : JsError, iterate collection = Abrupt e /\ errorClass e = TypeError.
Proof.
  intros Harray Hstring.
  destruct collection as [| | b | n | s | items | members];
    try (eexists; split; reflexivity).
  - now elim (Hstring s).
  - now elim (Harray items).
Qed.

Lemma searchProjects_nameless (rt : Runtime) (projectName : string)
  (before after : list JsValue) (p : JsValue) (w : Run) :
  Forall (nameDiffers rt projectName) before ->
  (forall n, getMember p "name" <> Normal (JsString n)) ->
  exists e : JsError,
    errorClass e = TypeError
    /\ searchProjects rt projectName (before ++ p :: after) w = (Abrupt e, w).
Proof.
  intros Hbefore Hnameless.
  induction Hbefore as [| q rest (m & Hm & Hvalid & Hq) _ IH]; cbn [searchProjects app].
  - async_unfold. destruct (getMember p "name") as [name | e] eqn:Hname.
    + destruct name as [| | b | n | s | items | members];
        try (eexists; split; [| reflexivity]; reflexivity).
      now elim (Hnameless s).
    + exists e. split; [| reflexivity]. eapply getMember_abrupt. exact Hname.
  - async_unfold. rewrite Hm. cbn [stringMatch]. rewrite Hvalid, Hq. exact IH.
Qed.

(** X11.  A fetched collection that cannot be iterated ([null], an object,
    a number, ...) and a project in the collection that is [null] or
    [undefined] or whose [name] is not a string, met before any match,
    make [resolveProject] throw a TypeError right after the fetch: no
    project is created and the project id is left as it was. *)
Theorem resolveProject_malformed_collection :
  forall (rt : Runtime) (projectName : string) (w : Run) (collection : JsValue),
    projectName <> "" ->
    let h1 := (events w ++ [Logged Info ("Resolving project by name: " ++ projectName)])%list in
    let fetch := GetRequest "/risk-management/projects" in
    let fetched := {| projectId := projectId w; scanId := scanId w;
                      events := h1 ++ [Called fetch (Returned collection)] |} in
    answer rt h1 fetch = Returned collection ->
    ((forall items, collection <> JsArray items) ->
     (forall s, collection <> JsString s) ->
     exists failure : JsError,
       errorClass failure = TypeError
       /\ resolveProject rt projectName w = (Abrupt failure, fetched))
    /\ (forall (before : list JsValue) (p : JsValue) (after : list JsValue),
           iterate collection = Normal (before ++ p :: after)%list ->
           Forall (nameDiffers rt projectName) before ->
           (forall n, getMember p "name" <> Normal (JsString n)) ->
           exists failure : JsError,
             errorClass failure = TypeError
             /\ resolveProject rt projectName w = (Abrupt failure, fetched)).
Proof.
  intros rt projectName w collection Hne h1 fetch fetched Hfetched.
  subst h1 fetch fetched. split.
  - intros Harray Hstring.
    destruct (iterate_not_iterable collection Harray Hstring) as (e & Hiter & Hclass).
    exists e. split; [exact Hclass |].
    rewrite resolveProject_run. cbv zeta.
    rewrite (getProjectIdByName_run rt projectName _ Hne).
    change PROJECTS with "/risk-management/projects".
    norm_events. rewrite Hfetched. cbv zeta. rewrite Hiter. norm_events. reflexivity.
  - intros before p after Hiter Hbefore Hnameless.
    rewrite resolveProject_run. cbv zeta.
    rewrite (getProjectIdByName_run rt projectName _ Hne).
    change PROJECTS with "/risk-management/projects".
    norm_events. rewrite Hfetched. cbv zeta. rewrite Hiter.
    match goal with
    | |- context [searchProjects rt projectName _ ?w1] =>
        destruct (searchProjects_nameless rt projectName before after p w1 Hbefore Hnameless)
          as (e & Hclass & Hsearch)
    end.
    rewrite Hsearch. exists e. split; [exact Hclass |]. norm_events. reflexivity.
Qed.

Lemma resolveProject_malformed_collection_witness :
  let rt := scriptedRuntime [Returned (JsObject [("projects", JsArray [])])] in
  exists failure : JsError,
    errorClass failure = TypeError
    /\ fst (resolveProject rt "billing" newScaClient) = Abrupt failure.
Proof.
  intros rt.
  destruct (resolveProject_malformed_collection rt "billing" newScaClient
              (JsObject [("projects", JsArray [])]) ltac:(discriminate) eq_refl)
    as [Hnotiterable _].
  destruct Hnotiterable as (failure & Hclass & Hrun); [discriminate | discriminate |].
  exists failure. split; [exact Hclass | now rewrite Hrun].
Defined.

(** X12.  What decides between binding and creating is the truthiness of
    the project id after the search, not whether a name matched: when the
    first project whose name matches has no [id], or an empty one, a
    client that held no project id goes on to post the creation of a new
    project of the requested name. *)
Theorem resolveProject_match_without_id_creates :
  forall (rt : Runtime) (projectName : string) (w : Run) (collection : JsValue)
         (before : list JsValue) (p : JsValue) (after : list JsValue) (id : JsValue),
    projectName <> "" ->
    let h1 := (events w ++ [Logged Info ("Resolving project by name: " ++ projectName)])%list in
    let fetch := GetRequest "/risk-management/projects" in
    answer rt h1 fetch = Returned collection ->
    iterate collection = Normal (before ++ p :: after)%list ->
    Forall (nameDiffers rt projectName) before ->
    nameMatches rt projectName p ->
    getMember p "id" = Normal id ->
    truthy id = false ->
    let h2 := (h1 ++ [Called fetch (Returned collection);
                      Logged Info "Project not found, creating a new one."])%list in
    let creation := PostRequest "/risk-management/projects"
                                (JsObject [("name", JsString projectName)]) in
    exists rest : list Event,
      events (snd (resolveProject rt projectName w))
      = (h2 ++ Called creation (answer rt h2 creation) :: rest)%list.
Proof.
  intros rt projectName w collection before p after id Hne h1 fetch
         Hfetched Hiter Hbefore Hp Hid Hfalsy h2 creation.
  subst h1 fetch h2 creation.
  rewrite resolveProject_run. cbv zeta.
  rewrite (getProjectIdByName_run rt projectName _ Hne).
  change PROJECTS with "/risk-management/projects".
  norm_events. rewrite Hfetched. cbv zeta. rewrite Hiter.
  rewrite (searchProjects_first_match rt projectName before after p id _ Hbefore Hp Hid).
  norm_events. rewrite Hfalsy. norm_events.
  destruct (answer rt _ (PostRequest _ _)) as [created | e] eqn:Hcreated;
    [destruct (getMember created "id") |];
    eexists; norm_events; rewrite ?Hcreated; reflexivity.
Qed.

Lemma resolveProject_match_without_id_creates_witness :
  let listed := [JsObject [("name", JsString "billing")]] in
  let rt := scriptedRuntime [Returned (JsArray listed);
                             Returned (JsObject [("id", JsString "p-9")])] in
  exists rest : list Event,
    events (snd (resolveProject rt "billing" newScaClient))
    = ([Logged Info "Resolving project by name: billing";
        Called (GetRequest "/risk-management/projects") (Returned (JsArray listed));
        Logged Info "Project not found, creating a new one.";
        Called (PostRequest "/risk-management/projects" (JsObject [("name", JsString "billing")]))
               (Returned (JsObject [("id", JsString "p-9")]))] ++ rest)%list.
Proof.
  intros listed rt.
  destruct (resolveProject_match_without_id_creates rt "billing" newScaClient
              (JsArray listed) [] (JsObject [("name", JsString "billing")]) [] JsUndefined
              ltac:(discriminate) eq_refl eq_refl (Forall_nil _)
              (ex_intro _ "billing" (conj eq_refl (conj eq_refl eq_refl)))
              eq_refl eq_refl) as (rest & Hrest).
  exists rest. exact Hrest.
Defined.

(** X13.  Whenever a collaborator rejects a request of [createScan], that
    rejected request is the last thing of the run: [createScan] asks
    nothing more and logs nothing more before it throws. *)
Theorem createScan_stops_at_rejection :
  forall (rt : Runtime) (config : ScaConfig) (sourceLocation : string) (w : Run),
    exists new : list Event,
      events (snd (createScan rt config sourceLocation w)) = (events w ++ new)%list
      /\ endsAtRejection new = true.
Proof.
  intros rt config sourceLocation w.
  run_createScan.
  all: eexists; split; [norm_events; reflexivity | reflexivity].
Qed.

(* ================================================================== *)
(** ** Further properties: retrieving the results                      *)
(* ================================================================== *)

(** X14.  [retrieveScanResults] only reads: it leaves the project id and
    the scan id as they were, everything it asks of its collaborators is a
    GET, there are at most four of them, and a rejected one is the last
    thing of the run. *)
Theorem retrieveScanResults_only_reads :
  forall (rt : Runtime) (config : ScaConfig) (w : Run),
    let outcome := retrieveScanResults rt config w in
    exists new : list Event,
      events (snd outcome) = (events w ++ new)%list
      /\ projectId (snd outcome) = projectId w
      /\ scanId (snd outcome) = scanId w
      /\ forallb isGetCall (calls new) = true
      /\ (List.length (calls new) <= 4)%nat
      /\ endsAtRejection new = true.
Proof.
  intros rt config w outcome. subst outcome.
  unfold retrieveScanResults, getReportId, getSummaryReport, getFindings, getPackages,
    getWebReportLink.
  async_unfold.
  repeat retrieval_step.
  all: eexists; split; [norm_events; reflexivity |].
  all: unfold summaryLines; cbn [app].
  all: repeat split; try reflexivity; cbn; lia.
Qed.

(** X15.  When the summary request is answered with [null] or
    [undefined], the retrieval fails while printing the summary: it throws
    an [Error] whose message is the retrieval prefix followed by the
    message of a TypeError, after the header line of the summary, and the
    vulnerabilities and the packages are never requested. *)
Theorem retrieveScanResults_null_summary :
  forall (rt : Runtime) (config : ScaConfig) (w : Run) (reportId summary : JsValue),
    let h1 := (events w ++ [Logged Info "Retrieving CxSCA scan results.";
                            Logged Debug ("Getting report ID by scan ID: "
                                            ++ toString (scanId w))])%list in
    let reportRequest := GetRequest (reportIdPath (scanId w)) in
    let h2 := (h1 ++ [Called reportRequest (Returned reportId);
                      Logged Info ("Report ID is: " ++ toString reportId);
                      Logged Debug "Getting summary report."])%list in
    let summaryRequest := GetRequest (summaryPath reportId) in
    answer rt h1 reportRequest = Returned reportId ->
    answer rt h2 summaryRequest = Returned summary ->
    summary = JsNull \/ summary = JsUndefined ->
    exists cause : JsError,
      errorClass cause = TypeError
      /\ retrieveScanResults rt config w
         = (Abrupt (mkError Error ("Error retrieving CxSCA scan results. " ++ message cause)),
            {| projectId := projectId w; scanId := scanId w;
               events := h2 ++ [Called summaryRequest (Returned summary);
                                Logged Info (LF ++ "----CxSCA risk report summary----")] |}).
Proof.
  intros rt config w reportId summary h1 reportRequest h2 summaryRequest
         Hreport Hsummary Hnull.
  subst h1 reportRequest h2 summaryRequest.
  unfold retrieveScanResults, getReportId, getSummaryReport.
  async_unfold. norm_events. rewrite Hreport. norm_events.
  revert Hsummary. norm_events. intros Hsummary. rewrite Hsummary.
  rewrite printSummaryResult_run.
  destruct Hnull as [-> | ->]; cbn [getMember]; norm_events;
    eexists; (split; [| reflexivity]); reflexivity.
Qed.

Lemma retrieveScanResults_null_summary_witness :
  let rt := scriptedRuntime [Returned (JsString "r-1"); Returned JsNull] in
  exists cause : JsError,
    errorClass cause = TypeError
    /\ fst (retrieveScanResults rt (testConfig REMOTE_REPOSITORY) newScaClient)
       = Abrupt (mkError Error ("Error retrieving CxSCA scan results. " ++ message cause)).
Proof.
  intros rt.
  destruct (retrieveScanResults_null_summary rt (testConfig REMOTE_REPOSITORY) newScaClient
              (JsString "r-1") JsNull eq_refl eq_refl (or_introl eq_refl))
    as (cause & Hclass & Hrun).
  exists cause. split; [exact Hclass | now rewrite Hrun].
Defined.

(** X16.  The web report link never decides whether a retrieval
    succeeds.  A retrieval whose requests were all answered and whose
    summary is neither [null] nor [undefined] succeeds, whatever the
    configured web application URL, set, empty or absent.  And a retrieval
    that succeeds carries the link built from the web application URL, the
    client's project id and the report id that its first request returned,
    or the empty link when no web application URL is configured. *)
Theorem retrieveScanResults_web_report_link :
  forall (rt : Runtime) (config : ScaConfig) (w : Run),
    let outcome := retrieveScanResults rt config w in
    let link (reportId : JsValue) : string :=
      match webAppUrl config with
      | Some base =>
          if (base =? "")%string then ""
          else base ++ "/#/projects/" ++ toString (projectId w)
                    ++ "/reports/" ++ toString reportId
      | None => ""
      end in
    exists new : list Event,
      events (snd outcome) = (events w ++ new)%list
      /\ (forall results : SCAResults,
             fst outcome = Normal results ->
             exists reportId : JsValue,
               In (Called (GetRequest ("/risk-management/scans/" ++ toString (scanId w)
                                         ++ "/riskReportId"))
                          (Returned reportId)) new
               /\ webReportLink results = link reportId)
      /\ ((forall (request : Call) (cause : JsError),
              ~ In (Called request (Rejected cause)) new) ->
          (forall reportId summary : JsValue,
              In (Called (GetRequest ("/risk-management/riskReports/" ++ toString reportId
                                        ++ "/summary"))
                         (Returned summary)) new ->
              summary <> JsNull /\ summary <> JsUndefined) ->
          exists results : SCAResults, fst outcome = Normal results).
Proof.
  intros rt config w outcome link. subst outcome link.
  unfold retrieveScanResults, getReportId, getSummaryReport, getFindings, getPackages,
    getWebReportLink, reportIdPath, summaryPath, findingsPath, packagesPath.
  async_unfold.
  repeat retrieval_step.
  all: eexists; split; [norm_events; reflexivity |].
  all: split.
  all: try (intros results [=]; fail).
  all: try (intros results [= <-]; eexists;
            split; [cbn [In]; repeat (first [left; reflexivity | right]) |];
            cbn [webReportLink]; reflexivity).
  all: try (intros _ _; eexists; reflexivity).
  all: try (intros Hanswered _; exfalso; eapply Hanswered;
            cbn [In]; repeat (first [left; reflexivity | right]); fail).
  all: intros _ Hsummary; exfalso.
  all: match goal with
       | Hm : getMember ?s "createdOn" = Abrupt _ |- _ =>
           assert (Hs : s <> JsNull /\ s <> JsUndefined)
             by (eapply Hsummary; cbn [In]; repeat (first [left; reflexivity | right]));
           destruct Hs as [Hnull Hundefined];
           destruct s; cbn [getMember] in Hm; try discriminate Hm;
           first [now apply Hundefined | now apply Hnull]
       end.
Qed.

Lemma retrieveScanResults_web_report_link_witness :
  let rt := scriptedRuntime [Returned (JsString "r-1");
                             Returned (JsObject [("riskScore", JsNumber 7)]);
                             Returned (JsArray []);
                             Returned (JsArray [])] in
  let config := mkScaConfig None REMOTE_REPOSITORY None "" "" false 0 0 0 in
  let w := mkRun (JsString "p-3") (JsString "s-5") [] in
  exists results : SCAResults,
    fst (retrieveScanResults rt config w) = Normal results
    /\ webReportLink results = "".
Proof.
  intros rt config w.
  destruct (retrieveScanResults_web_report_link rt config w)
    as (new & Hnew & Hlink & Hsucceeds).
  cbn [w events app] in Hnew.
  destruct Hsucceeds as (results & Hrun).
  - rewrite <- Hnew. vm_compute. intros request cause Hin.
    repeat (destruct Hin as [Hin | Hin]; [discriminate Hin |]). exact Hin.
  - rewrite <- Hnew. vm_compute. intros reportId summary Hin.
    repeat (destruct Hin as [Hin | Hin];
            [first [discriminate Hin
                   | injection Hin as _ <-; split; discriminate] |]).
    contradiction.
  - exists results. split; [exact Hrun |].
    destruct (Hlink results Hrun) as (reportId & _ & Hbuilt). exact Hbuilt.
Defined.

(* ================================================================== *)
(** ** Further properties: waiting for the results                     *)
(* ================================================================== *)

(** X17.  [waitForScanResults] retrieves only after the waiter has
    completed.  When the waiter throws, its error is thrown on unchanged
    and nothing is asked or logged after the waiter's own events.  When it
    completes, a report is returned only from a retrieval that is marked
    ready and that asked four GETs; and every failure after the wait is an
    [Error] whose message begins with the retrieval prefix. *)
Theorem waitForScanResults_waits_then_retrieves :
  forall (rt : Runtime) (config : ScaConfig)
         (waiter : JsValue -> list Event -> Completion unit * list Event)
         (Report : Type) (ScaReportResults : SCAResults -> Report) (w : Run),
    let started := (events w ++ [Logged Info gettingResultsBanner])%list in
    let waited := waiter (scanId w) started in
    let outcome := waitForScanResults rt config waiter Report ScaReportResults w in
    exists new : list Event,
      events (snd outcome) = (started ++ snd waited ++ new)%list
      /\ projectId (snd outcome) = projectId w
      /\ scanId (snd outcome) = scanId w
      /\ (forall e : JsError,
             fst waited = Abrupt e -> fst outcome = Abrupt e /\ new = [])
      /\ (fst waited = Normal tt ->
          (forall report : Report,
              fst outcome = Normal report ->
              exists results : SCAResults,
                report = ScaReportResults results
                /\ scaResultReady results = true
                /\ List.length (calls new) = 4%nat
                /\ forallb isGetCall (calls new) = true)
          /\ (forall failure : JsError,
                 fst outcome = Abrupt failure ->
                 exists detail : string,
                   failure = mkError Error ("Error retrieving CxSCA scan results. " ++ detail))).
Proof.
  intros rt config waiter Report wrap w started waited outcome.
  subst outcome. unfold waitForScanResults, waitForScanToFinishOf.
  async_unfold. fold started. fold waited.
  destruct waited as [[[] | e] added]; cbn [fst snd].
  - unfold retrieveScanResults, getReportId, getSummaryReport, getFindings, getPackages,
      getWebReportLink.
    async_unfold.
    repeat retrieval_step.
    all: eexists; split; [norm_events; reflexivity |].
    all: split; [reflexivity |]; split; [reflexivity |].
    all: split; [intros ? [=] |].
    all: intros _; split.
    all: try (intros report [=]; fail).
    all: try (intros failure [=]; fail).
    all: try (intros failure [= <-]; eexists; reflexivity).
    all: intros report Hreport; injection Hreport as <-;
      eexists; split; [reflexivity |]; split; [reflexivity |].
    all: unfold summaryLines; cbn [app]; split; reflexivity.
  - exists []. rewrite app_nil_r.
    split; [reflexivity |]. split; [reflexivity |]. split; [reflexivity |].
    split.
    + intros e' [= <-]. split; reflexivity.
    + intros [=].
Qed.

(* ================================================================== *)
(** ** Further properties: the threshold evaluator                     *)
(* ================================================================== *)

(** X18.  The second case of the evaluator's test, for all values: when no
    count is above its ceiling (a count equal to its ceiling included),
    the summary has no threshold error and [hasThresholdErrors] is false;
    so it is for the counts 2/11/18 against the ceilings 10/15/20. *)
Theorem getScanSummary_none_above_ceiling :
  forall (config : ScaConfig) (counts : VulnerabilityCounts),
    (forall s : Severity, countOf counts s <= ceilingOf config s) ->
    thresholdErrors (getScanSummary config counts) = []
    /\ hasThresholdErrors (getScanSummary config counts) = false.
Proof.
  intros config counts Hbelow.
  assert (Hnone : thresholdErrors (getScanSummary config counts) = []).
  { unfold getScanSummary. cbn [thresholdErrors].
    destruct (vulnerabilityThreshold config); [| reflexivity].
    unfold checkThreshold.
    pose proof (Hbelow High). pose proof (Hbelow Medium). pose proof (Hbelow Low).
    destruct (Z.ltb_spec (ceilingOf config High) (countOf counts High)); [lia |].
    destruct (Z.ltb_spec (ceilingOf config Medium) (countOf counts Medium)); [lia |].
    destruct (Z.ltb_spec (ceilingOf config Low) (countOf counts Low)); [lia |].
    reflexivity. }
  split; [exact Hnone |]. unfold hasThresholdErrors. now rewrite Hnone.
Qed.

Lemma getScanSummary_none_above_ceiling_witness :
  let summary := getScanSummary (mkScaConfig (Some "") REMOTE_REPOSITORY
                                   (Some (mkRemoteRepositoryInfo "")) "" "" true 10 15 20)
                                (mkCounts 2 11 18) in
  thresholdErrors summary = [] /\ hasThresholdErrors summary = false.
Proof.
  intros summary.
  apply (getScanSummary_none_above_ceiling
           (mkScaConfig (Some "") REMOTE_REPOSITORY (Some (mkRemoteRepositoryInfo "")) "" ""
                        true 10 15 20)
           (mkCounts 2 11 18)).
  intros s. destruct s; cbn; lia.
Defined.

Lemma waitForScanResults_waits_then_retrieves_witness :
  let timedOut := mkError Error "Waiting for CxSCA scan has reached the time limit." in
  let waiter := fun (_ : JsValue) (_ : list Event) =>
                  (@Abrupt unit timedOut, [Logged Info "Waiting for CxSCA scan results."]) in
  fst (waitForScanResults (scriptedRuntime []) (testConfig REMOTE_REPOSITORY) waiter
                          SCAResults (fun results => results) newScaClient)
  = Abrupt timedOut.
Proof.
  intros timedOut waiter.
  destruct (waitForScanResults_waits_then_retrieves
              (scriptedRuntime []) (testConfig REMOTE_REPOSITORY) waiter
              SCAResults (fun results => results) newScaClient)
    as (new & _ & _ & _ & Hthrows & _).
  exact (proj1 (Hthrows timedOut eq_refl)).
Defined.

(** X19.  [printSummaryResult] never fails on a summary that is not [null]
    or [undefined], whatever fields it has or lacks: it asks nothing of
    anyone, changes no field of the client and logs its eleven lines, a
    missing field being printed as [undefined]. *)
Theorem printSummaryResult_prints_any_value :
  forall (summary : JsValue) (w : Run),
    summary <> JsNull ->
    summary <> JsUndefined ->
    printSummaryResult summary w
    = (Normal tt,
       {| projectId := projectId w; scanId := scanId w;
          events := events w ++ summaryLines summary (scanId w) |})
    /\ List.length (summaryLines summary (scanId w)) = 11%nat
    /\ calls (summaryLines summary (scanId w)) = []
    /\ (getMember summary "createdOn" = Normal JsUndefined ->
        In (Logged Info "Created on: undefined") (summaryLines summary (scanId w))).
Proof.
  intros summary w Hnull Hundefined.
  rewrite printSummaryResult_run.
  repeat split.
  - destruct summary; try reflexivity; contradiction.
  - intros Hmissing. unfold summaryLines, memberOf. rewrite Hmissing.
    right. left. reflexivity.
Qed.

Lemma printSummaryResult_prints_any_value_witness :
  fst (printSummaryResult (JsObject []) newScaClient) = Normal tt
  /\ In (Logged Info "Created on: undefined")
        (summaryLines (JsObject []) (scanId newScaClient)).
Proof.
  destruct (printSummaryResult_prints_any_value (JsObject []) newScaClient
              ltac:(discriminate) ltac:(discriminate)) as (Hrun & _ & _ & Hline).
  split.
  - now rewrite Hrun.
  - exact (Hline eq_refl).
Defined.

(* ================================================================== *)
(** ** Further properties: how the methods compose                     *)
(* ================================================================== *)

(** X20.  What is uploaded is what was zipped.  Every upload command of a
    local-directory submission is
    [curl -X PUT -L <url> -H Content-Type: -T <file>], each argument in
    double quotes, where the file is the one that [tmpNameSync] named in
    this run -- the file the directory at the source location was zipped
    into, with the configured extension and folder filters -- and the URL
    is the [url] of the answer to this run's upload-URL request. *)
Theorem submitSourceFromLocalDir_uploads_the_archive :
  forall (rt : Runtime) (config : ScaConfig) (sourceLocation : string) (w : Run),
    let quote := String (ascii_of_nat 34) EmptyString in
    exists new : list Event,
      events (snd (submitSourceFromLocalDir rt config sourceLocation w)) = (events w ++ new)%list
      /\ (forall (command : string) (done : Reply),
             In (Called (ExecSync command) done) new ->
             exists file zipResult response target : JsValue,
               In (Called (TmpNameSync "cxsrc-" ".zip") (Returned file)) new
               /\ In (Called (ZipDirectory (dependencyFileExtension config)
                                           (dependencyFolderExclusion config)
                                           sourceLocation file)
                             (Returned zipResult)) new
               /\ In (Called (PostRequest "/api/uploads" (JsObject [])) (Returned response)) new
               /\ getMember response "url" = Normal target
               /\ command = "curl -X PUT -L " ++ quote ++ toString target ++ quote
                              ++ " -H " ++ quote ++ "Content-Type:" ++ quote
                              ++ " -T " ++ quote ++ toString file ++ quote).
Proof.
  intros rt config sourceLocation w quote.
  unfold submitSourceFromLocalDir, getSourceUploadUrl, uploadToAWS, sendStartScanRequest.
  async_unfold.
  repeat run_step.
  all: change CREATE_SCAN with "/api/scans" in *; change ZIP_UPLOAD with "/api/uploads" in *.
  all: eexists; split; [norm_events; reflexivity |].
  all: intros command done Hin; in_cases Hin.
  all: injection Hin as <- <-.
  all: do 4 eexists.
  all: do 3 (split; [cbn [In]; repeat (first [left; reflexivity | right]) |]).
  all: split; [eassumption | reflexivity].
Qed.

Lemma submitSourceFromLocalDir_uploads_the_archive_witness :
  let rt := scriptedRuntime [Returned (JsString "/tmp/cxsrc-1.zip");
                             Returned (JsObject [("fileCount", JsNumber 3)]);
                             Returned (JsObject [("url", JsString "https://storage.example/up")]);
                             Returned JsUndefined;
                             Returned (JsObject [("id", JsString "scan-1")])] in
  let outcome := submitSourceFromLocalDir rt (testConfig LOCAL_DIRECTORY) "/src" newScaClient in
  let quote := String (ascii_of_nat 34) EmptyString in
  exists file target : JsValue,
    In (Called (TmpNameSync "cxsrc-" ".zip") (Returned file)) (events (snd outcome))
    /\ "curl -X PUT -L " ++ quote ++ "https://storage.example/up" ++ quote
         ++ " -H " ++ quote ++ "Content-Type:" ++ quote
         ++ " -T " ++ quote ++ "/tmp/cxsrc-1.zip" ++ quote
       = "curl -X PUT -L " ++ quote ++ toString target ++ quote
           ++ " -H " ++ quote ++ "Content-Type:" ++ quote
           ++ " -T " ++ quote ++ toString file ++ quote.
Proof.
  intros rt outcome quote.
  destruct (submitSourceFromLocalDir_uploads_the_archive
              rt (testConfig LOCAL_DIRECTORY) "/src" newScaClient) as (new & Hnew & Huploads).
  cbn [newScaClient events app] in Hnew. fold outcome in Hnew.
  destruct (Huploads ("curl -X PUT -L " ++ quote ++ "https://storage.example/up" ++ quote
                        ++ " -H " ++ quote ++ "Content-Type:" ++ quote
                        ++ " -T " ++ quote ++ "/tmp/cxsrc-1.zip" ++ quote)
                     (Returned JsUndefined))
    as (file & _ & _ & target & Hnamed & _ & _ & _ & Hcommand).
  - rewrite <- Hnew. vm_compute. repeat (first [left; reflexivity | right]).
  - exists file, target. rewrite Hnew. split; [exact Hnamed | exact Hcommand].
Defined.

(** X21.  The scan id links scan creation to retrieval.  After a
    [createScan] that completed, the client's scan id is the [id] of the
    answer to its start-scan request, and the first request of a
    retrieval run from that state is the GET of
    [/risk-management/scans/<that id>/riskReportId]. *)
Theorem createScan_then_retrieveScanResults :
  forall (rt : Runtime) (config : ScaConfig) (sourceLocation : string) (w : Run),
    let created := createScan rt config sourceLocation w in
    fst created = Normal tt ->
    (exists (new : list Event) (request response : JsValue),
        events (snd created) = (events w ++ new)%list
        /\ In (Called (PostRequest "/api/scans" request) (Returned response)) new
        /\ getMember response "id" = Normal (scanId (snd created)))
    /\ (let h := (events (snd created)
                    ++ [Logged Info "Retrieving CxSCA scan results.";
                        Logged Debug ("Getting report ID by scan ID: "
                                        ++ toString (scanId (snd created)))])%list in
        let first := GetRequest ("/risk-management/scans/"
                                   ++ toString (scanId (snd created)) ++ "/riskReportId") in
        exists rest : list Event,
          events (snd (retrieveScanResults rt config (snd created)))
          = (h ++ Called first (answer rt h first) :: rest)%list).
Proof.
  intros rt config sourceLocation w created Hcreated.
  split.
  - subst created. revert Hcreated.
    run_createScan.
    all: intros [=].
    all: do 3 eexists; split; [norm_events; reflexivity |].
    all: split; [cbn [In]; repeat (first [left; reflexivity | right]) |].
    all: match goal with H : hasIdentifier _ _ |- _ => exact (proj1 (proj2 H)) end.
  - generalize (snd created). clear. intros w1.
    unfold retrieveScanResults, getReportId.
    async_unfold. norm_events.
    change (reportIdPath (scanId w1))
      with ("/risk-management/scans/" ++ toString (scanId w1) ++ "/riskReportId").
    destruct (answer rt _ (GetRequest _)) as [reportId | e] eqn:Hfirst.
    + match goal with
      | |- context [events (snd ?r)] =>
          assert (Hext : exists rest,
                     events (snd r) = (events w1
                        ++ [Logged Info "Retrieving CxSCA scan results.";
                            Logged Debug ("Getting report ID by scan ID: " ++ toString (scanId w1));
                            Called (GetRequest ("/risk-management/scans/"
                                                  ++ toString (scanId w1) ++ "/riskReportId"))
                                   (Returned reportId)] ++ rest)%list)
      end.
      { unfold getSummaryReport, getFindings, getPackages, getWebReportLink.
        async_unfold.
        repeat retrieval_step.
        all: eexists; norm_events; reflexivity. }
      destruct Hext as (rest & ->). exists rest.
      norm_events. rewrite ?Hfirst. reflexivity.
    + eexists. norm_events. rewrite ?Hfirst. reflexivity.
Qed.

Lemma createScan_then_retrieveScanResults_witness :
  let rt := scriptedRuntime [Returned (JsObject [("id", JsNumber 17)])] in
  let config := mkScaConfig None REMOTE_REPOSITORY
                  (Some (mkRemoteRepositoryInfo "https://git.example/app.git"))
                  "" "" false 0 0 0 in
  let created := createScan rt config "" newScaClient in
  exists rest : list Event,
    events (snd (retrieveScanResults rt config (snd created)))
    = ((events (snd created)
          ++ [Logged Info "Retrieving CxSCA scan results.";
              Logged Debug "Getting report ID by scan ID: 17"])
         ++ Called (GetRequest "/risk-management/scans/17/riskReportId")
                   (Rejected (mkError Error "connect ECONNREFUSED")) :: rest)%list.
Proof.
  intros rt config created.
  assert (Hcreated : fst created = Normal tt) by (vm_compute; reflexivity).
  destruct (createScan_then_retrieveScanResults rt config "" newScaClient Hcreated)
    as [_ (rest & Hrest)].
  exists rest. fold created in Hrest. rewrite Hrest. vm_compute. reflexivity.
Defined.
